(** * AtomCLI build pipeline: builder and downloader components

    A shallow embedding of [components/builder/index.js] and
    [components/downloader/index.js].  JavaScript strings are Rocq strings
    (the UTF-8 bytes of the text), objects used as ordered tables are
    association lists, the file system is a finite map from normalised
    paths to nodes, and code that can throw returns an [outcome].  What
    the platform decides (the regular expression a text compiles to, the
    decoding of a file, JSON, the network, the compiler) is a parameter
    of the model, given as a class. *)

From Stdlib Require Import String Ascii List ZArith Bool Lia DecimalString.
From stdpp Require Import base option list gmap strings.
Import ListNotations.
Local Open Scope string_scope.

(** String concatenation and comparison compute on constructors only. *)
#[local] Arguments String.append !s1 s2 : simpl nomatch.
#[local] Arguments String.eqb !s1 !s2 : simpl nomatch.

(* ===================================================================== *)
(** ** Text: the string primitives the JavaScript code relies on         *)
(* ===================================================================== *)

Module Text.

(** The double quote and the line feed, as one-character strings. *)
Definition dq : string := String (ascii_of_nat 34) EmptyString.
Definition nl : string := String (ascii_of_nat 10) EmptyString.

(** [s.slice(n)] *)
Fixpoint sdrop (n : nat) (s : string) : string :=
  match n, s with
  | 0, _ => s
  | S k, String _ t => sdrop k t
  | S _, EmptyString => EmptyString
  end.

(** [s.slice(0, n)] *)
Fixpoint stake (n : nat) (s : string) : string :=
  match n, s with
  | 0, _ => EmptyString
  | S k, String a t => String a (stake k t)
  | S _, EmptyString => EmptyString
  end.

(** [s.startsWith(p)] *)
Fixpoint starts_with (p s : string) : bool :=
  match p with
  | EmptyString => true
  | String a p' =>
      match s with
      | String b s' => Ascii.eqb a b && starts_with p' s'
      | EmptyString => false
      end
  end.

(** [s.endsWith(suf)] *)
Definition ends_with (suf s : string) : bool :=
  (String.length suf <=? String.length s)%nat
  && String.eqb (sdrop (String.length s - String.length suf) s) suf.

Definition is_empty (s : string) : bool :=
  match s with EmptyString => true | String _ _ => false end.

(** [a || b] on strings: the empty string is falsy. *)
Definition or_else (a b : string) : string := if is_empty a then b else a.

(** [o || d] where [o] may also be [undefined]. *)
Definition or_default (o : option string) (d : string) : string :=
  match o with
  | Some s => or_else s d
  | None => d
  end.

(** [s.split(sep)] for a one-character separator; [cur] is the piece
    being read. *)
Fixpoint split_from (sep : ascii) (cur : string) (s : string) : list string :=
  match s with
  | EmptyString => [cur]
  | String a t =>
      if Ascii.eqb a sep then cur :: split_from sep EmptyString t
      else split_from sep (cur ++ String a EmptyString) t
  end.

Definition split (sep : ascii) (s : string) : list string :=
  split_from sep EmptyString s.

(** [xs.join(sep)] *)
Fixpoint join (sep : string) (xs : list string) : string :=
  match xs with
  | [] => EmptyString
  | [x] => x
  | x :: rest => x ++ sep ++ join sep rest
  end.

(** [A-Za-z0-9_] *)
Definition word_char (a : ascii) : bool :=
  let n := nat_of_ascii a in
  ((48 <=? n) && (n <=? 57) || (65 <=? n) && (n <=? 90)
   || (97 <=? n) && (n <=? 122) || (n =? 95))%nat.


End Text.
Import Text.

(* ===================================================================== *)
(** ** Re: the regular expressions of the patcher, with JavaScript's
       greedy, backtracking, leftmost-first matching                      *)
(* ===================================================================== *)

Module Re.

(** A character class looks at the text from the current position on
    (never called at the end of the text) and accepts or refuses its
    first character. *)
Definition cls := string -> bool.

Definition head_is (f : ascii -> bool) : cls :=
  fun s => match s with String a _ => f a | EmptyString => false end.

(** [\w] *)
Definition word : cls := head_is word_char.

(** [[^c]] for the one-character string [c] *)
Definition other_than (c : string) : cls :=
  fun s => match s, c with
           | String a _, String b _ => negb (Ascii.eqb a b)
           | _, _ => false
           end.

(** a single or a double quote *)
Definition quote : cls :=
  head_is (fun a => Ascii.eqb a (ascii_of_nat 39) || Ascii.eqb a (ascii_of_nat 34)).

(** [.]: anything but a line terminator, that is LF, CR, U+2028 and
    U+2029 (the last two are the bytes E2 80 A8 and E2 80 A9). *)
Definition dot : cls :=
  fun s =>
    match s with
    | EmptyString => false
    | String a t =>
        let n := nat_of_ascii a in
        if (n =? 10)%nat || (n =? 13)%nat then false
        else if (n =? 226)%nat then
          match t with
          | String b (String c _) =>
              negb ((nat_of_ascii b =? 128)%nat
                    && ((nat_of_ascii c =? 168)%nat || (nat_of_ascii c =? 169)%nat))
          | _ => true
          end
        else true
    end.

Inductive item :=
| Lit (l : string)     (* literal text *)
| One (c : cls)        (* one character of a class *)
| Opt (l : string)     (* l?  *)
| Star (c : cls)       (* c*  *)
| Plus (c : cls).      (* c+  *)

(** Length of the longest run of class [c] at the start of [s]. *)
Fixpoint run (c : cls) (s : string) : nat :=
  match s with
  | EmptyString => 0
  | String _ t => if c s then S (run c t) else 0
  end.

(** A greedy quantifier gives characters back one at a time: the
    continuation [k] is tried after [lo + extra], ..., [lo] characters. *)
Fixpoint backtrack (k : string -> option nat) (s : string) (lo extra : nat)
  : option nat :=
  match k (sdrop (lo + extra) s) with
  | Some n => Some (lo + extra + n)
  | None =>
      match extra with
      | 0 => None
      | S e => backtrack k s lo e
      end
  end.

Definition after (l : string) (k : string -> option nat) (s : string) : option nat :=
  if starts_with l s
  then (fun n => String.length l + n) <$> k (sdrop (String.length l) s)
  else None.

(** Match the items at the very start of [s]; the result is the length
    of the match. *)
Fixpoint match_here (p : list item) (s : string) : option nat :=
  match p with
  | [] => Some 0
  | Lit l :: p' => after l (match_here p') s
  | One c :: p' =>
      match s with
      | String _ t => if c s then S <$> match_here p' t else None
      | EmptyString => None
      end
  | Opt l :: p' =>
      match after l (match_here p') s with
      | Some n => Some n
      | None => match_here p' s
      end
  | Star c :: p' => backtrack (match_here p') s 0 (run c s)
  | Plus c :: p' =>
      match run c s with
      | 0 => None
      | S r => backtrack (match_here p') s 1 r
      end
  end.

(** Leftmost match: [(index, length)]. *)
Fixpoint search_from (p : list item) (s : string) (i : nat) : option (nat * nat) :=
  match match_here p s with
  | Some n => Some (i, n)
  | None =>
      match s with
      | EmptyString => None
      | String _ t => search_from p t (S i)
      end
  end.

Definition search (p : list item) (s : string) : option (nat * nat) :=
  search_from p s 0.

(** [pattern.test(s)] *)
Definition test (p : list item) (s : string) : bool :=
  match search p s with Some _ => true | None => false end.

(** [s.replace(pattern, ...)] without the [g] flag: the leftmost match
    is replaced by [f] of the matched text. *)
Definition replace_first (p : list item) (f : string -> string) (s : string) : string :=
  match search p s with
  | Some (i, n) => stake i s ++ f (stake n (sdrop i s)) ++ sdrop (i + n) s
  | None => s
  end.

(** [s.replace(/pattern/g, ...)]: every match, left to right, matches
    do not overlap and replaced text is not scanned again. *)
Fixpoint replace_all_from (p : list item) (f : string -> string)
         (skip : nat) (s : string) : string :=
  match skip with
  | S k =>
      match s with
      | String _ t => replace_all_from p f k t
      | EmptyString => EmptyString
      end
  | 0 =>
      match match_here p s with
      | Some (S n) =>
          f (stake (S n) s)
          ++ match s with
             | String _ t => replace_all_from p f n t
             | EmptyString => EmptyString
             end
      | Some 0 =>
          f EmptyString
          ++ match s with
             | String a t => String a (replace_all_from p f 0 t)
             | EmptyString => EmptyString
             end
      | None =>
          match s with
          | String a t => String a (replace_all_from p f 0 t)
          | EmptyString => EmptyString
          end
      end
  end.

Definition replace_all (p : list item) (f : string -> string) (s : string) : string :=
  replace_all_from p f 0 s.

(** The text a replacement string stands for at a match of a pattern
    without groups: [$$] is a dollar, [$&] the matched text, [$`] the
    text before the match, [$'] the text after it; a dollar in front of
    anything else, a digit included, stands for itself. *)
Fixpoint substitute (replacement matched before after : string) : string :=
  match replacement with
  | EmptyString => EmptyString
  | String a t =>
      if Ascii.eqb a "$" then
        match t with
        | String b u =>
            if Ascii.eqb b "$" then String b (substitute u matched before after)
            else if Ascii.eqb b "&" then matched ++ substitute u matched before after
            else if Ascii.eqb b "`" then before ++ substitute u matched before after
            else if Ascii.eqb b "'" then after ++ substitute u matched before after
            else String a (substitute t matched before after)
        | EmptyString => String a EmptyString
        end
      else String a (substitute t matched before after)
  end.

(** [s.replace(pattern, replacement)] with a replacement string, for a
    pattern without groups and without the [g] flag. *)
Definition replace_match (p : list item) (replacement s : string) : string :=
  match search p s with
  | Some (i, n) =>
      stake i s
      ++ substitute replacement (stake n (sdrop i s)) (stake i s) (sdrop (i + n) s)
      ++ sdrop (i + n) s
  | None => s
  end.

(** A regular expression object, for what the patcher does with one:
    [pattern.test(s)] and [s.replace(pattern, replacement)] with a
    replacement string. *)
Record regexp := {
  re_test : string -> bool;
  re_replace : string -> string -> string;
}.

(** A regular expression literal without groups. *)
Definition literal (p : list item) : regexp :=
  {| re_test := test p;
     re_replace := fun s replacement => replace_match p replacement s |}.

End Re.

(* ===================================================================== *)
(** ** Js: values, truthiness, property reads, thrown errors              *)
(* ===================================================================== *)

Module Js.

(** A function either returns or throws an [Error] with a message. *)
Inductive outcome (A : Type) :=
| Returns (a : A)
| Throws (message : string).
Arguments Returns {A} a.
Arguments Throws {A} message.

(** The values a parsed JSON document and a manifest field can be.  A
    number is carried as its canonical rendering ([String(n)]), which is
    all the code ever does with one. *)
#[warnings="-register-all"]
Inductive value :=
| Undefined
| Null
| Bool (b : bool)
| Num (rendering : string)
| Str (s : string)
| Arr (items : list value)
| Obj (fields : list (string * value)).

(** [!!v] *)
Definition truthy (v : value) : bool :=
  match v with
  | Undefined | Null => false
  | Bool b => b
  | Num r => negb (String.eqb r "0" || String.eqb r "NaN")
  | Str s => negb (is_empty s)
  | Arr _ | Obj _ => true
  end.

Fixpoint lookup_field (k : string) (fields : list (string * value)) : value :=
  match fields with
  | [] => Undefined
  | (k', v) :: rest => if String.eqb k' k then v else lookup_field k rest
  end.

(** [v.k] for a key that no prototype defines (such as [packageName],
    [version], [shasum]): an own property of an object, [undefined] on
    anything else. *)
Definition get (v : value) (k : string) : value :=
  match v with
  | Obj fields => lookup_field k fields
  | _ => Undefined
  end.

(** [String(v)], as a template literal renders [v], when it renders it
    ([renders] below). *)
Fixpoint to_string (v : value) : string :=
  match v with
  | Undefined => "undefined"
  | Null => "null"
  | Bool true => "true"
  | Bool false => "false"
  | Num r => r
  | Str s => s
  | Arr items =>
      join ","
        (map (fun x => match x with
                       | Undefined | Null => EmptyString
                       | _ => to_string x
                       end) items)
  | Obj _ => "[object Object]"
  end.

Definition has_key (k : string) (fields : list (string * value)) : bool :=
  existsb (fun e => String.eqb (fst e) k) fields.

(** Whether a parsed value can be turned into a string.  An object is
    turned into one by its [toString], then by its [valueOf]: an object
    with an entry [toString] of its own, which parsed from JSON is never
    a function, falls back on [valueOf], which gives no primitive either,
    and the conversion throws.  An array joins the strings of its items. *)
Fixpoint renders (v : value) : bool :=
  match v with
  | Arr items => forallb renders items
  | Obj fields => negb (has_key "toString" fields)
  | _ => true
  end.

(** [`${v}`]: the string, or the [TypeError] of the conversion. *)
Definition render (v : value) : outcome string :=
  if renders v then Returns (to_string v)
  else Throws "Cannot convert object to primitive value".

(** *** What JSON keeps of a value *)

Definition is_digit (a : ascii) : bool :=
  let n := nat_of_ascii a in ((48 <=? n) && (n <=? 57))%nat.

Definition is_sign (a : ascii) : bool := Ascii.eqb a "+" || Ascii.eqb a "-".

Definition is_exp (a : ascii) : bool := Ascii.eqb a "e" || Ascii.eqb a "E".

Fixpoint skip_digits (s : string) : string :=
  match s with
  | String a t => if is_digit a then skip_digits t else s
  | EmptyString => EmptyString
  end.

(** One digit or more, and nothing else. *)
Definition digits (s : string) : bool :=
  match s with
  | String a t => is_digit a && is_empty (skip_digits t)
  | EmptyString => false
  end.

(** Nothing, or an exponent: [e] or [E], a sign or none, digits. *)
Definition exponent (s : string) : bool :=
  match s with
  | EmptyString => true
  | String a t =>
      is_exp a
      && digits (match t with
                 | String b u => if is_sign b then u else t
                 | EmptyString => t
                 end)
  end.

(** What may follow the integer part: a fraction or none, then an
    exponent or none. *)
Definition fraction (s : string) : bool :=
  match s with
  | String a t =>
      if Ascii.eqb a "." then
        match t with
        | String d u => is_digit d && exponent (skip_digits u)
        | EmptyString => false
        end
      else exponent s
  | EmptyString => true
  end.

(** The rendering of a finite number: it is a number of the JSON
    grammar, which [NaN], [Infinity] and [-Infinity] are not. *)
Definition json_number (r : string) : bool :=
  match (match r with
         | String a t => if Ascii.eqb a "-" then t else r
         | EmptyString => r
         end) with
  | String d t =>
      if Ascii.eqb d "0" then fraction t else is_digit d && fraction (skip_digits t)
  | EmptyString => false
  end.


End Js.
Import Js.

(* ===================================================================== *)
(** ** Path: [path.join], [path.dirname], [path.basename] (POSIX)         *)
(* ===================================================================== *)

Module Path.

(** A normalised absolute path: its segments from the root. *)
Abbreviation path := (list string).

(** [s.split('/')] *)
Definition segments (s : string) : list string := split "/" s.

Definition push (p : path) (seg : string) : path :=
  if is_empty seg || String.eqb seg "." then p
  else if String.eqb seg ".." then removelast p
  else (p ++ [seg])%list.

(** [path.join(p, rel)] *)
Definition join (p : path) (rel : string) : path :=
  fold_left push (segments rel) p.

(** [path.dirname(p)] *)
Definition dirname (p : path) : path := removelast p.

Definition last_segment (s : string) : string :=
  List.last (List.filter (fun seg => negb (is_empty seg)) (segments s)) EmptyString.

(** [path.basename(p, ext)] *)
Definition basename (p ext : string) : string :=
  if String.eqb p ext then EmptyString
  else
    let seg := last_segment p in
    if ends_with ext seg && negb (String.eqb seg ext)
    then stake (String.length seg - String.length ext) seg
    else seg.

(** The path as the text [/a/b/c]. *)
Definition show (p : path) : string := "/" ++ Text.join "/" p.

End Path.

(* ===================================================================== *)
(** ** Fs: the synchronous file-system calls.  Calls fail for structural
       reasons only (missing parent, directory in the way, ...);
       permissions and device errors are not modelled.  The messages are
       those of Node on Linux.                                            *)
(* ===================================================================== *)

Module Fs.

Inductive node :=
| File (content : string)
| Dir.

Abbreviation fsT := (gmap (list string) node).

(** The root always exists and is a directory. *)
Definition node_at (fs : fsT) (p : Path.path) : option node :=
  match p with
  | [] => Some Dir
  | _ => fs !! p
  end.

Definition existsSync (fs : fsT) (p : Path.path) : bool :=
  match node_at fs p with Some _ => true | None => false end.

Definition is_dir (fs : fsT) (p : Path.path) : bool :=
  match node_at fs p with Some Dir => true | _ => false end.

(** The path between quotes, as the message of a failed call ends. *)
Definition quoted (p : Path.path) : string := "'" ++ Path.show p ++ "'".

(** Why nothing is found at a path: on the way from the root a name is
    missing, or it is the name of a file. *)
Fixpoint obstacle (fs : fsT) (done : Path.path) (todo : list string) : string :=
  match todo with
  | [] => "ENOENT: no such file or directory"
  | seg :: rest =>
      match fs !! (done ++ [seg])%list with
      | Some Dir => obstacle fs (done ++ [seg])%list rest
      | Some (File _) => "ENOTDIR: not a directory"
      | None => "ENOENT: no such file or directory"
      end
  end.

(** The bytes of the file. *)
Definition readFileSync (fs : fsT) (p : Path.path) : outcome string :=
  match node_at fs p with
  | Some (File c) => Returns c
  | Some Dir => Throws "EISDIR: illegal operation on a directory, read"
  | None => Throws (obstacle fs [] p ++ ", open " ++ quoted p)
  end.

(** Creates or truncates the file; the parent must be a directory. *)
Definition writeFileSync (fs : fsT) (p : Path.path) (content : string) : outcome fsT :=
  match node_at fs p with
  | Some Dir => Throws ("EISDIR: illegal operation on a directory, open " ++ quoted p)
  | _ =>
      if is_dir fs (Path.dirname p) then Returns (<[p := File content]> fs)
      else Throws (obstacle fs [] (Path.dirname p) ++ ", open " ++ quoted p)
  end.

Fixpoint mkdir_from (fs : fsT) (done : Path.path) (todo : list string) : outcome fsT :=
  match todo with
  | [] => Returns fs
  | seg :: rest =>
      let p := (done ++ [seg])%list in
      match fs !! p with
      | Some (File _) =>
          Throws (match rest with
                  | [] => "EEXIST: file already exists"
                  | _ => "ENOTDIR: not a directory"
                  end)
      | Some Dir => mkdir_from fs p rest
      | None => mkdir_from (<[p := Dir]> fs) p rest
      end
  end.

(** [fs.mkdirSync(p, { recursive: true })] *)
Definition mkdirSync_recursive (fs : fsT) (p : Path.path) : outcome fsT :=
  match mkdir_from fs [] p with
  | Returns fs' => Returns fs'
  | Throws e => Throws (e ++ ", mkdir " ++ quoted p)
  end.

Definition unlinkSync (fs : fsT) (p : Path.path) : outcome fsT :=
  match node_at fs p with
  | Some (File _) => Returns (delete p fs)
  | Some Dir => Throws ("EISDIR: illegal operation on a directory, unlink " ++ quoted p)
  | None => Throws (obstacle fs [] p ++ ", unlink " ++ quoted p)
  end.

(** [fs.rmSync(p, { recursive: true, force: true })] *)
Definition rmSync_recursive_force (fs : fsT) (p : Path.path) : fsT :=
  filter (fun e => ¬ (p `prefix_of` e.1)) fs.

(** [fs.readdirSync(p)]: the names directly under [p]. *)
Definition readdirSync (fs : fsT) (p : Path.path) : outcome (list string) :=
  match node_at fs p with
  | Some Dir =>
      Returns (omap (fun e : list string * node =>
                       match drop (length p) e.1 with
                       | [name] => if bool_decide (take (length p) e.1 = p)
                                   then Some name else None
                       | _ => None
                       end)
                    (map_to_list fs))
  | Some (File _) => Throws ("ENOTDIR: not a directory, scandir " ++ quoted p)
  | None => Throws (obstacle fs [] p ++ ", scandir " ++ quoted p)
  end.

(** [fs.statSync(p).size] *)
Definition stat_size (fs : fsT) (p : Path.path) : outcome nat :=
  match node_at fs p with
  | Some (File c) => Returns (String.length c)
  | Some Dir => Returns 0
  | None => Throws (obstacle fs [] p ++ ", stat " ++ quoted p)
  end.

End Fs.
Import Fs.

(* ===================================================================== *)
(** ** Builder: target templates                                          *)
(* ===================================================================== *)

Module Builder.

Record BuildTargetTemplate := {
  target : string;
  platform : string;
  arch : string;
  variant : string;
  extension : string;
  requires : option string;
  libc : option string;
  shell : option string;
  description : option string;
}.

Definition tmpl (t p a v e : string) : BuildTargetTemplate :=
  {| target := t; platform := p; arch := a; variant := v; extension := e;
     requires := None; libc := None; shell := None; description := None |}.

(** The table, in the order the object literal lists its keys
    (the order [Object.entries] yields). *)
Definition BUILD_TARGET_TEMPLATES : list (string * BuildTargetTemplate) :=
  [ ("windows-x64", tmpl "bun-windows-x64" "windows" "x64" "standard" ".exe");
    ("windows-x64-modern",
      {| target := "bun-windows-x64-modern"; platform := "windows"; arch := "x64";
         variant := "modern"; extension := ".exe";
         requires := Some "AVX2 (CPUs from 2013+)";
         libc := None; shell := None; description := None |});
    ("windows-x64-baseline",
      {| target := "bun-windows-x64-baseline"; platform := "windows"; arch := "x64";
         variant := "baseline"; extension := ".exe";
         requires := Some "SSE2 (CPUs from 2003+)";
         libc := None; shell := None; description := None |});
    ("linux-x64", tmpl "bun-linux-x64" "linux" "x64" "standard" EmptyString);
    ("linux-x64-modern", tmpl "bun-linux-x64-modern" "linux" "x64" "modern" EmptyString);
    ("linux-x64-baseline", tmpl "bun-linux-x64-baseline" "linux" "x64" "baseline" EmptyString);
    ("linux-arm64", tmpl "bun-linux-arm64" "linux" "arm64" "standard" EmptyString);
    ("linux-x64-musl",
      {| target := "bun-linux-x64-musl"; platform := "linux"; arch := "x64";
         variant := "musl"; extension := EmptyString;
         requires := None; libc := Some "musl"; shell := None; description := None |});
    ("linux-arm64-musl",
      {| target := "bun-linux-arm64-musl"; platform := "linux"; arch := "arm64";
         variant := "musl"; extension := EmptyString;
         requires := None; libc := Some "musl"; shell := None; description := None |});
    ("macos-x64", tmpl "bun-darwin-x64" "macos" "x64" "standard" EmptyString);
    ("macos-arm64", tmpl "bun-darwin-arm64" "macos" "arm64" "standard" EmptyString);
    ("android-arm64",
      {| target := "bun-linux-arm64"; platform := "android"; arch := "arm64";
         variant := "termux"; extension := EmptyString;
         requires := None; libc := None;
         shell := Some "/data/data/com.termux/files/usr/bin/bash";
         description := Some "Android ARM64 (Termux)" |}) ].

(** [toolConfig.build] of a CLI_REGISTRY entry; every field may be
    missing. *)
Record BuildConfig := {
  entryPoint : option string;
  envPrefix : option string;
  binaryName : option string;
}.

Record ToolConfig := {
  name : option string;
  build : option BuildConfig;
}.

(** [toolConfig?.build?.f] *)
Definition build_field (f : BuildConfig -> option string)
           (toolConfig : option ToolConfig) : option string :=
  match toolConfig with
  | Some c => match build c with Some b => f b | None => None end
  | None => None
  end.

(** A concrete target: the template's fields copied, plus [output]. *)
Record BuildTarget := {
  template : BuildTargetTemplate;
  output : string;
}.

Definition generateBuildTargets (toolId : string) (toolConfig : option ToolConfig)
  : list (string * BuildTarget) :=
  let binaryName := or_default (build_field binaryName toolConfig) toolId in
  map (fun '(id, template) =>
         (id, {| template := template;
                 output := binaryName ++ "-" ++ id
                           ++ or_else (extension template) EmptyString |}))
      BUILD_TARGET_TEMPLATES.

Definition claude_code_config : ToolConfig :=
  {| name := None;
     build := Some {| entryPoint := None; envPrefix := None;
                      binaryName := Some "claude-code" |} |}.

Definition BUILD_TARGETS : list (string * BuildTarget) :=
  generateBuildTargets "claude-code" (Some claude_code_config).

(** [targets[id]] among the own keys of the table. *)
Fixpoint lookup_target (id : string) (targets : list (string * BuildTarget))
  : option BuildTarget :=
  match targets with
  | [] => None
  | (k, t) :: rest => if String.eqb k id then Some t else lookup_target id rest
  end.

(** The table is a plain object: [targets[id]] also finds what
    [Object.prototype] gives every object, a function or, for
    [__proto__], the prototype itself. *)
Definition inherited (id : string) : bool :=
  existsb (String.eqb id)
    [ "constructor"; "toString"; "toLocaleString"; "valueOf"; "hasOwnProperty";
      "isPrototypeOf"; "propertyIsEnumerable"; "__proto__";
      "__defineGetter__"; "__defineSetter__"; "__lookupGetter__"; "__lookupSetter__" ].

Definition getTargetsForPlatform (p : string) : list (string * BuildTarget) :=
  filter (fun e => platform (template (snd e)) = p) BUILD_TARGETS.

(** The host is [process.platform] and [process.arch]. *)
Definition host_platform (process_platform : string) : string :=
  if String.eqb process_platform "win32" then "windows"
  else if String.eqb process_platform "darwin" then "macos"
  else "linux".

Definition matches_host (platform0 arch0 : string) (e : string * BuildTarget) : bool :=
  String.eqb (platform (template (snd e))) platform0
  && String.eqb (arch (template (snd e))) arch0
  && String.eqb (variant (template (snd e))) "standard".

Definition getCurrentTarget (process_platform process_arch : string) : string :=
  let platform0 := host_platform process_platform in
  let arch0 := process_arch in
  or_default (fst <$> List.find (matches_host platform0 arch0) BUILD_TARGETS)
             "linux-x64".

(* ------------------------------------------------------------------- *)
(** *** Source patcher                                                   *)
(* ------------------------------------------------------------------- *)

Import Re.

(** [/^#!.*\n/] *)
Definition shebang_line : list item := [Lit "#!"; Star dot; Lit nl].

(** [/^#![^\n]*\n/] *)
Definition shebang_to_newline : list item := [Lit "#!"; Star (other_than nl); Lit nl].

Record EmbeddedFile := { ef_path : string; ef_var : string }.

Definition ripgrepFiles : list EmbeddedFile :=
  [ {| ef_path := "vendor/ripgrep/arm64-darwin/rg"; ef_var := "__embeddedRgDarwinArm64" |};
    {| ef_path := "vendor/ripgrep/arm64-linux/rg"; ef_var := "__embeddedRgLinuxArm64" |};
    {| ef_path := "vendor/ripgrep/x64-darwin/rg"; ef_var := "__embeddedRgDarwinX64" |};
    {| ef_path := "vendor/ripgrep/x64-linux/rg"; ef_var := "__embeddedRgLinuxX64" |};
    {| ef_path := "vendor/ripgrep/x64-win32/rg.exe"; ef_var := "__embeddedRgWin32" |} ].

Definition embeddedCode (embeddedImports embeddedFilesMapping : list string) : string :=
  "
// ═══════════════════════════════════════════════════════════════════════════
// ATOMCLI EMBEDDED FILES
// Generated by AtomCLI Builder
// ═══════════════════════════════════════════════════════════════════════════

"
  ++ Text.join nl embeddedImports
  ++ "

const __embeddedFiles = {
"
  ++ Text.join nl embeddedFilesMapping
  ++ "
};

function __getSafePlatform() {
  try {
    const p = typeof process !== 'undefined' ? process : {};
    return { arch: (p.arch || 'x64').toString(), platform: (p.platform || 'linux').toString() };
  } catch (e) {
    return { arch: 'x64', platform: 'linux' };
  }
}

// ═══════════════════════════════════════════════════════════════════════════

".

Definition addEmbeddedImports (fs : fsT) (content : string) (sourceDir : Path.path)
  : string :=
  let yoga := existsSync fs (Path.join sourceDir "yoga.wasm") in
  let present :=
    List.filter (fun file => existsSync fs (Path.join sourceDir (ef_path file)))
                ripgrepFiles in
  let embeddedImports :=
    List.app
      (if yoga
       then ["import __embeddedYogaWasm from " ++ dq ++ "./yoga.wasm" ++ dq
             ++ " with { type: " ++ dq ++ "file" ++ dq ++ " };"]
       else [])
      (map (fun file =>
              "import " ++ ef_var file ++ " from " ++ dq ++ "./" ++ ef_path file ++ dq
              ++ " with { type: " ++ dq ++ "file" ++ dq ++ " };") present) in
  let embeddedFilesMapping :=
    List.app
      (if yoga then ["  'yoga.wasm': __embeddedYogaWasm,"] else [])
      (map (fun file => "  '" ++ ef_path file ++ "': " ++ ef_var file ++ ",") present) in
  let code := embeddedCode embeddedImports embeddedFilesMapping in
  match match_here shebang_line content with
  | Some n => stake n content ++ code ++ sdrop n content
  | None => code ++ content
  end.

Definition windowsHeader (binaryName : string) : string :=
  "
// ═══════════════════════════════════════════════════════════════════════════
// WINDOWS COMPATIBILITY LAYER
// ═══════════════════════════════════════════════════════════════════════════

let __executablePath;
if (process.argv[1]) {
  const path = require('path');
  __executablePath = path.isAbsolute(process.argv[1]) ? process.argv[1] : path.resolve(process.argv[1]);
} else {
  __executablePath = require('path').join(process.cwd(), '" ++ binaryName ++ ".exe');
}

const __filename = __executablePath;
const __dirname = require('path').dirname(__executablePath);

function __toFileURL(filePath) {
  const resolved = require('path').resolve(filePath);
  if (process.platform === 'win32') {
    return 'file:///' + resolved.replace(/\\/g, '/');
  }
  return 'file://' + resolved;
}

// ═══════════════════════════════════════════════════════════════════════════

".

(** What the patcher asks of the platform: [new RegExp(source)], which
    gives the regular expression [source] is, or throws the
    [SyntaxError] of a text that is none; and the decoding of the bytes
    of a file as UTF-8, [buffer.toString('utf-8')], which puts U+FFFD
    where the bytes are not UTF-8. *)
Class Engine := {
  RegExp : string -> outcome regexp;
  utf8 : string -> string;
}.

(** The text [new RegExp] is given for the marker of a prefix: the dots
    are escaped, the prefix is not. *)
Definition marker_source (envPrefix : string) : string :=
  "process\.env\." ++ envPrefix ++ "_ENTRYPOINT=" ++ dq ++ "cli" ++ dq.

(** The two patterns written as literals, tried after the one of the
    prefix. *)
Definition fixed_patterns : list regexp :=
  [ literal [Lit ("process.env.CLAUDE_CODE_ENTRYPOINT=" ++ dq ++ "cli" ++ dq)];
    literal [Lit "process.env."; Plus word; Lit ("_ENTRYPOINT=" ++ dq ++ "cli" ++ dq)] ].

(** [for (const pattern of patterns) if (pattern.test(content)) {
      content = content.replace(pattern, replacement); break; }] *)
Fixpoint mark_entrypoint (patterns : list regexp) (replacement content : string)
  : string :=
  match patterns with
  | [] => content
  | pattern :: rest =>
      if re_test pattern content
      then re_replace pattern content replacement
      else mark_entrypoint rest replacement content
  end.

Section Patcher.
Context `{Engine}.

(** The three patterns tried, in turn, for the entry-point marker; the
    array is built before the first one is tried. *)
Definition entrypointPatterns (envPrefix : string) : outcome (list regexp) :=
  match RegExp (marker_source envPrefix) with
  | Returns pattern => Returns (pattern :: fixed_patterns)
  | Throws e => Throws e
  end.

(** The text the first group [(\w+)] of [... \$\{(\w+)\}] captured in a
    match [m] whose literal head has [n] characters. *)
Definition braced_word (n : nat) (m : string) : string :=
  stake (String.length m - n - 1) (sdrop n m).

(** The first part of [applyWindowsPatches]: the compatibility header,
    then the global replacements. *)
Definition windows_compat (content binaryName : string) : string :=
  let content :=
    match match_here shebang_line content with
    | Some n => stake n content ++ windowsHeader binaryName ++ sdrop n content
    | None => windowsHeader binaryName ++ content
    end in
  let content :=
    replace_all [Lit "import.meta.url"] (fun _ => "__toFileURL(__filename)") content in
  let content :=
    replace_all [Lit (dq ++ "/dev/null" ++ dq)] (fun _ => dq ++ "NUL" ++ dq) content in
  let content :=
    replace_all [Lit "source ${"; Plus word; Lit "}"]
                (fun m => "REM source ${" ++ braced_word 9 m ++ "}") content in
  replace_all [Lit "eval ${"; Plus word; Lit "}"]
              (fun m => "${" ++ braced_word 7 m ++ "}") content.

Definition windows_marker (envPrefix : string) : string :=
  "process.env." ++ envPrefix ++ "_ENTRYPOINT=" ++ dq ++ "cli" ++ dq
  ++ ";process.env." ++ envPrefix ++ "_WINDOWS_EXECUTABLE=" ++ dq ++ "1" ++ dq.

Definition applyWindowsPatches (content : string) (toolConfig : option ToolConfig)
  : outcome string :=
  let binaryName := or_default (build_field binaryName toolConfig) "cli-tool" in
  let envPrefix := or_default (build_field envPrefix toolConfig) "CLI_TOOL" in
  let content := windows_compat content binaryName in
  match entrypointPatterns envPrefix with
  | Throws e => Throws e
  | Returns patterns =>
      Returns (mark_entrypoint patterns (windows_marker envPrefix) content)
  end.

Definition SHELL_DETECTION_CODE : string :=
  "
// ATOMCLI: Runtime Shell Detection
var __atomcli_detectShell = (function() {
  var fs = require('fs');
  var cp = require('child_process');
  return function() {
    var env = process.env;
    // User preference via env var takes priority
    if (env.CLAUDE_SHELL) return env.CLAUDE_SHELL;
    if (process.platform === 'win32') {
      // Windows: PowerShell Core > PowerShell > cmd
      var winShells = ['pwsh.exe', 'powershell.exe', 'cmd.exe'];
      for (var i = 0; i < winShells.length; i++) {
        try { cp.execSync('where ' + winShells[i], {stdio:'pipe'}); return winShells[i]; } catch(e) {}
      }
      return 'cmd.exe';
    } else {
      // Termux detection first
      if (fs.existsSync('/data/data/com.termux/files/usr/bin/bash')) {
        return '/data/data/com.termux/files/usr/bin/bash';
      }
      // Unix: check SHELL env
      if (env.SHELL && fs.existsSync(env.SHELL)) return env.SHELL;
      // Fallback: try common shells
      var unixShells = ['/bin/bash', '/bin/zsh', '/bin/sh'];
      for (var j = 0; j < unixShells.length; j++) {
        if (fs.existsSync(unixShells[j])) return unixShells[j];
      }
      return '/bin/sh';
    }
  };
})();
".

(** The directive [use strict] at the very start, between single or
    double quotes (either one on either side), with its semicolon when
    there is one. *)
Definition use_strict : list item := [One quote; Lit "use strict"; One quote; Opt ";"].

(** The minified shell check: the head [if(!J){let F=] and the message
    that opens with [No suitable shell found], then [[^}]+throw[^}]+\}]. *)
Definition shellCheckPattern : list item :=
  [ Lit ("if(!J){let F=" ++ dq ++ "No suitable shell found");
    Plus (other_than "}"); Lit "throw"; Plus (other_than "}"); Lit "}" ].

(** The replacement holds no dollar: it stands for itself. *)
Definition shellCheckReplacement : string := "if(!J){J=__atomcli_detectShell()}".

Definition strip_shebang (content : string) : string :=
  match match_here shebang_to_newline content with
  | Some n => sdrop n content
  | None => content
  end.

Definition inject_shell_detection (content : string) : string :=
  match match_here use_strict content with
  | Some n => stake n content ++ SHELL_DETECTION_CODE ++ sdrop n content
  | None => SHELL_DETECTION_CODE ++ content
  end.

Definition bypass_shell_check (content : string) : string :=
  if test shellCheckPattern content
  then replace_first shellCheckPattern (fun _ => shellCheckReplacement) content
  else content.

Definition bundled_marker (envPrefix : string) : string :=
  "process.env." ++ envPrefix ++ "_ENTRYPOINT=" ++ dq ++ "cli" ++ dq
  ++ ";process.env." ++ envPrefix ++ "_BUNDLED=" ++ dq ++ "1" ++ dq.

Definition applyCommonPatches (content : string) (toolConfig : option ToolConfig)
  : outcome string :=
  let envPrefix := or_default (build_field envPrefix toolConfig) "CLI_TOOL" in
  let content := strip_shebang content in
  match entrypointPatterns envPrefix with
  | Throws e => Throws e
  | Returns patterns =>
      let content := mark_entrypoint patterns (bundled_marker envPrefix) content in
      let content := inject_shell_detection content in
      Returns (bypass_shell_check content)
  end.

End Patcher.

(** What a call leaves behind: the file system, the messages passed to
    [onStatus] and the chunks passed to [onProgress]. *)
Record world := {
  w_fs : fsT;
  w_status : list string;
  w_progress : list string;
}.

Definition say (w : world) (msg : string) : world :=
  {| w_fs := w_fs w; w_status := (w_status w ++ [msg])%list;
     w_progress := w_progress w |}.

Definition with_fs (w : world) (fs : fsT) : world :=
  {| w_fs := fs; w_status := w_status w; w_progress := w_progress w |}.

Definition prepared_name (entryPoint targetPlatform : string) : string :=
  let baseName := Path.basename entryPoint ".js" in
  if String.eqb targetPlatform "windows"
  then baseName ++ "-windows-prepared.js"
  else baseName ++ "-prepared.js".

Section Prepare.
Context `{Engine}.

Definition prepareSource (w : world) (sourceDir : Path.path) (targetPlatform : string)
           (toolConfig : option ToolConfig) : world * outcome Path.path :=
  let entryPoint := or_default (build_field entryPoint toolConfig) "cli.js" in
  let cliPath := Path.join sourceDir entryPoint in
  if negb (existsSync (w_fs w) cliPath)
  then (w, Throws ("CLI source not found at " ++ Path.show cliPath))
  else
    let w := say w ("Reading CLI source (" ++ entryPoint ++ ")...") in
    match readFileSync (w_fs w) cliPath with
    | Throws e => (w, Throws e)
    | Returns bytes =>
        let cliContent := utf8 bytes in
        let w := say w "Adding embedded file imports..." in
        let cliContent := addEmbeddedImports (w_fs w) cliContent sourceDir in
        let '(w, patched) :=
          if String.eqb targetPlatform "windows"
          then (say w "Applying Windows-specific patches...",
                applyWindowsPatches cliContent toolConfig)
          else (w, Returns cliContent) in
        match patched with
        | Throws e => (w, Throws e)
        | Returns cliContent =>
            let w := say w "Applying common patches..." in
            match applyCommonPatches cliContent toolConfig with
            | Throws e => (w, Throws e)
            | Returns cliContent =>
                let preparedPath :=
                  Path.join sourceDir (prepared_name entryPoint targetPlatform) in
                match writeFileSync (w_fs w) preparedPath cliContent with
                | Throws e => (w, Throws e)
                | Returns fs' =>
                    (say (with_fs w fs')
                         ("Prepared source written to " ++ Path.show preparedPath),
                     Returns preparedPath)
                end
            end
        end
    end.

End Prepare.

(* ------------------------------------------------------------------- *)
(** *** Compiler invoker and orchestrator                                *)
(* ------------------------------------------------------------------- *)

(** How the spawned compiler ended: the [close] event with its exit
    code ([None] when a signal ended it), what it wrote to its standard
    streams and the seconds elapsed since the build started, or the
    [error] event of a process that could not be spawned. *)
Inductive BunRun :=
| Closed (code : option Z) (stdout : list string) (stderr : string) (elapsed : string)
| SpawnError (message : string).

(** The host the builder runs on: where probing finds Bun, what a
    spawned Bun does to the file system and how it ends, and the
    rendering of a byte count in megabytes with one decimal. *)
Class Toolchain := {
  findBunPath : option string;
  spawn_bun : string -> list string -> Path.path -> fsT -> fsT * BunRun;
  megabytes : nat -> string;
}.

Record BuildResult := {
  r_target : string;
  r_toolId : string;
  r_output : Path.path;
  r_elapsed : string;
  r_size : nat;
  r_sizeMB : string;
}.

Record BuildOptions := {
  toolId : option string;
  toolConfig : option ToolConfig;
}.

Section Build.
Context `{Engine} `{Toolchain}.

Definition hasBun : bool :=
  match findBunPath with Some _ => true | None => false end.

(** [buildTarget] for an id that is no key of the table but a member
    of [Object.prototype]: the target found has none of the fields of a
    target.  The source is prepared for the platform [undefined], and
    [path.join(outputDir, undefined)] throws. *)
Definition buildTarget_inherited (w : world) (sourceDir : Path.path)
           (options : BuildOptions) : world * outcome BuildResult :=
  if negb hasBun
  then (w, Throws "Bun is required to build executables. Install from https://bun.sh")
  else
    let toolName :=
      or_default (match toolConfig options with
                  | Some c => name c
                  | None => None
                  end) "CLI" in
    let w := say w ("Preparing " ++ toolName ++ " source for undefined...") in
    match prepareSource w sourceDir "undefined" (toolConfig options) with
    | (w, Throws e) => (w, Throws e)
    | (w, Returns _) =>
        (w, Throws ("The " ++ dq ++ "path" ++ dq
                    ++ " argument must be of type string. Received undefined"))
    end.

Definition buildTarget (w : world) (targetId : string)
           (sourceDir outputDir : Path.path) (options : BuildOptions)
  : world * outcome BuildResult :=
  let targets :=
    match toolConfig options with
    | Some _ =>
        generateBuildTargets (or_default (toolId options) "claude-code")
                             (toolConfig options)
    | None => BUILD_TARGETS
    end in
  match lookup_target targetId targets with
  | None =>
      if inherited targetId then buildTarget_inherited w sourceDir options
      else (w, Throws ("Unknown target: " ++ targetId))
  | Some target0 =>
      if negb hasBun
      then (w, Throws "Bun is required to build executables. Install from https://bun.sh")
      else
        let toolName :=
          or_default (match toolConfig options with
                      | Some c => name c
                      | None => None
                      end) "CLI" in
        let platform0 := platform (template target0) in
        let w := say w ("Preparing " ++ toolName ++ " source for " ++ platform0 ++ "...") in
        match prepareSource w sourceDir platform0 (toolConfig options) with
        | (w, Throws e) => (w, Throws e)
        | (w, Returns preparedSource) =>
            let platformDir := Path.join outputDir platform0 in
            let made :=
              if existsSync (w_fs w) platformDir then Returns (w_fs w)
              else mkdirSync_recursive (w_fs w) platformDir in
            match made with
            | Throws e => (w, Throws e)
            | Returns fs1 =>
                let w := with_fs w fs1 in
                let outputPath := Path.join platformDir (output target0) in
                let w := say w ("Building " ++ output target0 ++ "...") in
                match findBunPath with
                | None => (w, Throws "Bun not found. Install from https://bun.sh")
                | Some bunPath =>
                    let args :=
                      [ "build"; "--compile"; "--minify"; "--sourcemap";
                        "--target=" ++ target (template target0);
                        Path.show preparedSource;
                        "--outfile=" ++ Path.show outputPath ] in
                    match spawn_bun bunPath args sourceDir (w_fs w) with
                    | (fs2, SpawnError e) => (with_fs w fs2, Throws e)
                    | (fs2, Closed code stdout stderr elapsed) =>
                        let w :=
                          {| w_fs := fs2; w_status := w_status w;
                             w_progress := (w_progress w ++ stdout)%list |} in
                        match code with
                        | Some 0%Z =>
                            let fileSize :=
                              match stat_size fs2 outputPath with
                              | Returns n => n
                              | Throws _ => 0
                              end in
                            (w, Returns
                                  {| r_target := targetId;
                                     r_toolId := or_default (toolId options) "claude-code";
                                     r_output := outputPath;
                                     r_elapsed := elapsed ++ "s";
                                     r_size := fileSize;
                                     r_sizeMB := megabytes fileSize |})
                        | _ =>
                            (w, Throws ("Build failed for " ++ targetId ++ ":" ++ nl ++ stderr))
                        end
                    end
                end
            end
        end
  end.

(** One entry of the array [buildTargets] returns: the result of a
    build ([success: true]) or [{ success: false, target, error }]. *)
Inductive BatchEntry :=
| Built (r : BuildResult)
| Failed (failed_target : string) (error : string).

Definition entry_success (e : BatchEntry) : bool :=
  match e with Built _ => true | Failed _ _ => false end.

Definition entry_target (e : BatchEntry) : string :=
  match e with Built r => r_target r | Failed t _ => t end.

(** The [for ... of] loop, [results] being the array built so far. *)
Fixpoint buildTargets_from (results : list BatchEntry) (w : world)
         (targetIds : list string) (sourceDir outputDir : Path.path)
         (options : BuildOptions) : world * list BatchEntry :=
  match targetIds with
  | [] => (w, results)
  | targetId :: rest =>
      let '(w', o) := buildTarget w targetId sourceDir outputDir options in
      let entry :=
        match o with
        | Returns result => Built result
        | Throws message => Failed targetId message
        end in
      buildTargets_from (results ++ [entry])%list w' rest sourceDir outputDir options
  end.

Definition buildTargets := buildTargets_from [].

Definition buildPlatform (w : world) (platform0 : string)
           (sourceDir outputDir : Path.path) (options : BuildOptions)
  : world * list BatchEntry :=
  buildTargets w (map fst (getTargetsForPlatform platform0))
               sourceDir outputDir options.

End Build.

End Builder.

(* ===================================================================== *)
(** ** Downloader: manifest cache, transport, npm download                *)
(* ===================================================================== *)

Module Downloader.

Definition MANIFEST_FILENAME : string := ".atomcli-manifest.json".

(** [a === b] where at least one side was just parsed from a document:
    two arrays or two objects are then never the same object, and [NaN]
    equals nothing. *)
Definition strict_eq (a b : value) : bool :=
  match a, b with
  | Undefined, Undefined => true
  | Null, Null => true
  | Bool x, Bool y => Bool.eqb x y
  | Num x, Num y => String.eqb x y && negb (String.eqb x "NaN")
  | Str x, Str y => String.eqb x y
  | _, _ => false
  end.

(** [v?.k] *)
Definition get_opt (v : value) (k : string) : value :=
  match v with
  | Undefined | Null => Undefined
  | _ => get v k
  end.

(** A promise, as the caller that awaits it sees it in the end. *)
Inductive promise (A : Type) :=
| Pending
| Resolved (a : A)
| Rejected (message : string).
Arguments Pending {A}.
Arguments Resolved {A} a.
Arguments Rejected {A} message.

(** What a request emits, in order: the response head, chunks of the
    body, the end of the body, an error of the file stream the body is
    piped to, an error of the request, the 30 s idle timeout. *)
Inductive net_event :=
| Response (statusCode : Z) (statusMessage : string)
           (location : option string) (contentLength : option nat)
| Data (chunk : string)
| Finish
| StreamError (message : string)
| RequestError (message : string)
| Timeout.

(** The platform under the downloader: the JSON codec, from and to the
    bytes of a file ([JSON_stringify v] is what [writeFileSync] writes
    for [JSON.stringify(v, null, 2)], no text when that is [undefined];
    [JSON_parse] is [JSON.parse] of the bytes read as UTF-8, no value
    when it throws), the digest of a file's content by algorithm,
    [encodeURIComponent], the clock, the events each GET request emits,
    the document [fetchJson] ends with and what unpacking a tarball into
    a directory does. *)
Class Runtime := {
  JSON_parse : string -> option value;
  JSON_stringify : value -> option string;
  digest_hex : string -> string -> string;
  toLowerCase : string -> string;
  encodeURIComponent : string -> string;
  now_iso : string;
  http_get : string -> list net_event;
  fetchJson : string -> promise value;
  untar : string -> Path.path -> fsT -> outcome fsT;
}.


(** A status code in decimal. *)
Definition render_Z (z : Z) : string := NilZero.string_of_int (Z.to_int z).

(** The file system, the messages passed to [onStatus], the triples
    passed to [onProgress] and the GET requests sent so far. *)
Record world := {
  d_fs : fsT;
  d_status : list string;
  d_progress : list (nat * nat * nat);
  d_requests : list string;
}.

Definition with_fs (w : world) (fs : fsT) : world :=
  {| d_fs := fs; d_status := d_status w; d_progress := d_progress w;
     d_requests := d_requests w |}.

Definition say (w : world) (msg : string) : world :=
  {| d_fs := d_fs w; d_status := (d_status w ++ [msg])%list;
     d_progress := d_progress w; d_requests := d_requests w |}.

Definition progress (w : world) (p : nat * nat * nat) : world :=
  {| d_fs := d_fs w; d_status := d_status w;
     d_progress := (d_progress w ++ [p])%list; d_requests := d_requests w |}.

Definition request (w : world) (url : string) : world :=
  {| d_fs := d_fs w; d_status := d_status w; d_progress := d_progress w;
     d_requests := (d_requests w ++ [url])%list |}.

(** The verdict of the cache. *)
Record CacheCheck := {
  upToDate : bool;
  localVersion : value;
  reason : string;
}.

(** What [downloadFromNpm] resolves with. *)
Record NpmResult := {
  n_name : string;
  n_version : value;
  n_extractDir : Path.path;
  n_files : list string;
  n_skipped : bool;
  n_reason : option string;
}.

Record VersionInfo := {
  v_version : value;
  v_tarball : value;
  v_shasum : value;
}.

(** One download in flight. *)
Record download := {
  dl_world : world;
  dl_promise : promise Path.path;
  dl_piping : bool;          (* the body is being piped to the file stream *)
  dl_total : nat;            (* totalSize *)
  dl_received : nat;         (* downloadedSize *)
  dl_live : bool;            (* the request still delivers events *)
}.

(** [resolve]/[reject]: only the first settlement counts. *)
Definition settle (d : download) (p : promise Path.path) : download :=
  {| dl_world := dl_world d;
     dl_promise := match dl_promise d with Pending => p | settled => settled end;
     dl_piping := dl_piping d; dl_total := dl_total d;
     dl_received := dl_received d; dl_live := dl_live d |}.

Definition set_world (d : download) (w : world) : download :=
  {| dl_world := w; dl_promise := dl_promise d; dl_piping := dl_piping d;
     dl_total := dl_total d; dl_received := dl_received d; dl_live := dl_live d |}.

Definition set_piping (d : download) (b : bool) : download :=
  {| dl_world := dl_world d; dl_promise := dl_promise d; dl_piping := b;
     dl_total := dl_total d; dl_received := dl_received d; dl_live := dl_live d |}.

Definition stop (d : download) : download :=
  {| dl_world := dl_world d; dl_promise := dl_promise d; dl_piping := false;
     dl_total := dl_total d; dl_received := dl_received d; dl_live := false |}.

(** The double nearest to [n / d] for [n] and [d] positive, the even
    one of two that are as near, as a fraction: the quotient is scaled
    to a significand of 53 bits, which is rounded to an integer. *)
Definition to_double (n d : Z) : Z * Z :=
  let s0 := (53 + Z.log2 d - Z.log2 n)%Z in
  let scaled (s : Z) : Z * Z :=
    if (0 <=? s)%Z then (n * 2 ^ s, d)%Z else (n, d * 2 ^ (- s))%Z in
  let s :=
    let '(a, b) := scaled s0 in
    if (2 ^ 53 * b <=? a)%Z then (s0 - 1)%Z else s0 in
  let '(a, b) := scaled s in
  let q := (a / b)%Z in
  let r := (a mod b)%Z in
  let m :=
    if (b <? 2 * r)%Z then (q + 1)%Z
    else if (2 * r =? b)%Z && Z.odd q then (q + 1)%Z
    else q in
  if (0 <=? s)%Z then (m, 2 ^ s)%Z else (m * 2 ^ (- s), 1)%Z.

(** [Math.round((received / total) * 100)], for sizes below 2^53 and a
    total that is not zero: the quotient is a double, so is its product
    by 100, and [Math.round] gives the integer nearest to that, the
    upper one of two. *)
Definition percent (received total : nat) : nat :=
  match received with
  | 0 => 0
  | _ =>
      let '(a, b) := to_double (Z.of_nat received) (Z.of_nat total) in
      let '(c, d) := to_double (a * 100) b in
      Z.to_nat ((2 * c + d) / (2 * d))
  end.

(** [fs.unlink(p, () => {})]: errors are ignored.  The removal is
    taken to be done when the call is issued. *)
Definition unlink_quietly (fs : fsT) (p : Path.path) : fsT :=
  match unlinkSync fs p with
  | Returns fs' => fs'
  | Throws _ => fs
  end.

(** The handler of the file stream's [error] event. *)
Definition on_stream_error (d : download) (destPath : Path.path) (message : string)
  : download :=
  let d := set_world d (with_fs (dl_world d) (unlink_quietly (d_fs (dl_world d)) destPath)) in
  settle (set_piping d false) (Rejected message).

Section Transport.
Context `{Runtime}.

(** The response callback for a status that is not a followed redirect. *)
Definition on_response (d : download) (destPath : Path.path)
           (statusCode : Z) (statusMessage : string) (contentLength : option nat)
  : download :=
  if negb (statusCode =? 200)%Z
  then settle d (Rejected ("HTTP " ++ render_Z statusCode ++ ": " ++ statusMessage))
  else
    let fs := d_fs (dl_world d) in
    let dir := Path.dirname destPath in
    let made := if existsSync fs dir then Returns fs else mkdirSync_recursive fs dir in
    match made with
    | Throws _ => stop d      (* thrown inside the callback: nobody rejects *)
    | Returns fs1 =>
        let d :=
          {| dl_world := with_fs (dl_world d) fs1; dl_promise := dl_promise d;
             dl_piping := dl_piping d;
             dl_total := match contentLength with Some n => n | None => 0 end;
             dl_received := 0; dl_live := dl_live d |} in
        (* fs.createWriteStream(destPath): the file is created or truncated *)
        match writeFileSync fs1 destPath EmptyString with
        | Returns fs2 => set_piping (set_world d (with_fs (dl_world d) fs2)) true
        | Throws e => on_stream_error d destPath e
        end
    end.

Definition append_chunk (fs : fsT) (p : Path.path) (chunk : string) : fsT :=
  match fs !! p with
  | Some (File c) => <[p := File (c ++ chunk)]> fs
  | _ => fs
  end.

Definition on_data (d : download) (destPath : Path.path) (chunk : string) : download :=
  if dl_piping d then
    let received := dl_received d + String.length chunk in
    let w := with_fs (dl_world d) (append_chunk (d_fs (dl_world d)) destPath chunk) in
    let w := if (0 <? dl_total d)%nat
             then progress w (received, dl_total d, percent received (dl_total d))
             else w in
    {| dl_world := w; dl_promise := dl_promise d; dl_piping := true;
       dl_total := dl_total d; dl_received := received; dl_live := dl_live d |}
  else d.

(** [downloadFile(url, destPath, onProgress)]: the request is sent and
    its events are handled one after the other.  A followed redirect is a
    download of its own, taken to run to its end before the redirecting
    request delivers anything more; [redirects] bounds the chain of
    redirects followed, and when it is used up the promise is still
    pending. *)
Fixpoint downloadFile_events (redirects : nat)
  : list net_event -> Path.path -> download -> download :=
  fix handle (events : list net_event) (destPath : Path.path) (d : download)
    : download :=
    match events with
    | [] => d
    | ev :: rest =>
        if negb (dl_live d) then d
        else
          match ev with
          | Response statusCode statusMessage location contentLength =>
              let redirect :=
                (300 <=? statusCode)%Z && (statusCode <? 400)%Z
                && negb (is_empty (or_default location EmptyString)) in
              if redirect then
                match redirects with
                | 0 => d
                | S n =>
                    let url' := or_default location EmptyString in
                    let inner :=
                      downloadFile_events n (http_get url') destPath
                        {| dl_world := request (dl_world d) url'; dl_promise := Pending;
                           dl_piping := false; dl_total := 0; dl_received := 0;
                           dl_live := true |} in
                    handle rest destPath
                      (settle (set_world d (dl_world inner)) (dl_promise inner))
                end
              else
                handle rest destPath
                  (on_response d destPath statusCode statusMessage contentLength)
          | Data chunk => handle rest destPath (on_data d destPath chunk)
          | Finish =>
              handle rest destPath
                (if dl_piping d then settle (set_piping d false) (Resolved destPath)
                 else d)
          | StreamError message =>
              handle rest destPath
                (if dl_piping d then on_stream_error d destPath message else d)
          | RequestError message => handle rest destPath (settle d (Rejected message))
          | Timeout =>
              (* request.destroy(); reject(new Error('Download timeout')) *)
              settle (stop d) (Rejected "Download timeout")
          end
    end.

Definition downloadFile (redirects : nat) (w : world) (url : string)
           (destPath : Path.path) : world * promise Path.path :=
  let d :=
    downloadFile_events redirects (http_get url) destPath
      {| dl_world := request w url; dl_promise := Pending; dl_piping := false;
         dl_total := 0; dl_received := 0; dl_live := true |} in
  (dl_world d, dl_promise d).

End Transport.

Section Cache.
Context `{Runtime}.

Definition readManifest (fs : fsT) (destDir : Path.path) : value :=
  let manifestPath := Path.join destDir MANIFEST_FILENAME in
  if existsSync fs manifestPath then
    match readFileSync fs manifestPath with
    | Returns content =>
        match JSON_parse content with
        | Some manifest => manifest
        | None => Null
        end
    | Throws _ => Null
    end
  else Null.

Definition writeManifest (fs : fsT) (destDir : Path.path) (data : value) : fsT :=
  let manifestPath := Path.join destDir MANIFEST_FILENAME in
  let made :=
    if existsSync fs destDir then Returns fs else mkdirSync_recursive fs destDir in
  match made with
  | Throws _ => fs
  | Returns fs1 =>
      match JSON_stringify data with
      | None => fs1
      | Some text =>
          match writeFileSync fs1 manifestPath text with
          | Returns fs2 => fs2
          | Throws _ => fs1
          end
      end
  end.

(** The two reasons that quote values are template literals: a value
    that cannot be turned into a string makes the call throw. *)
Definition checkIfUpToDate (fs : fsT) (destDir : Path.path)
           (packageName remoteVersion remoteShasum : value) : outcome CacheCheck :=
  let manifest := readManifest fs destDir in
  if negb (truthy manifest) then
    Returns {| upToDate := false; localVersion := Null;
               reason := "No local manifest found" |}
  else if negb (strict_eq (get manifest "packageName") packageName) then
    match render (get manifest "packageName") with
    | Throws e => Throws e
    | Returns localName =>
        match render packageName with
        | Throws e => Throws e
        | Returns remoteName =>
            Returns {| upToDate := false; localVersion := get manifest "version";
                       reason := "Different package (local: " ++ localName
                                 ++ ", remote: " ++ remoteName ++ ")" |}
        end
    end
  else if negb (strict_eq (get manifest "version") remoteVersion) then
    match render (get manifest "version") with
    | Throws e => Throws e
    | Returns localText =>
        match render remoteVersion with
        | Throws e => Throws e
        | Returns remoteText =>
            Returns {| upToDate := false; localVersion := get manifest "version";
                       reason := "Version mismatch (local: " ++ localText
                                 ++ ", remote: " ++ remoteText ++ ")" |}
        end
    end
  else if truthy (get manifest "shasum") && truthy remoteShasum
          && negb (strict_eq (get manifest "shasum") remoteShasum) then
    Returns {| upToDate := false; localVersion := get manifest "version";
               reason := "Checksum mismatch (package may have been republished)" |}
  else if negb (existsSync fs (Path.join destDir "package")) then
    Returns {| upToDate := false; localVersion := get manifest "version";
               reason := "Extracted files missing" |}
  else
    Returns {| upToDate := true; localVersion := get manifest "version";
               reason := "Local version matches remote" |}.

End Cache.

Section Npm.
Context `{Runtime}.

(** [undefined] or [null] *)
Definition nullish (v : value) : bool :=
  match v with Undefined | Null => true | _ => false end.

(** The message of reading a property of [null] or [undefined]. *)
Definition cannot_read (v : value) (property : string) : string :=
  "Cannot read properties of " ++ to_string v ++ " (reading '" ++ property ++ "')".

(** [getNpmPackageInfo] followed by the request for one version.  Of
    the package document only [dist-tags.latest] is used further on;
    building the summary also reads [data.versions?.[latest]], which
    turns [latest] into a property key when [versions] is there. *)
Definition getNpmPackageVersionInfo (w : world) (packageName : string)
           (version : option string) : world * promise VersionInfo :=
  let encodedName :=
    Re.replace_first [Re.Lit "%40"] (fun _ => "@") (encodeURIComponent packageName) in
  let url := "https://registry.npmjs.org/" ++ encodedName in
  let w := request w url in
  match fetchJson url with
  | Pending => (w, Pending)
  | Rejected e => (w, Rejected e)
  | Resolved data =>
      if nullish data then (w, Rejected (cannot_read data "name"))
      else
        let latestVersion := get_opt (get data "dist-tags") "latest" in
        if negb (nullish (get data "versions")) && negb (renders latestVersion)
        then (w, Rejected "Cannot convert object to primitive value")
        else
          let targetVersion :=
            match version with
            | Some v => if is_empty v then latestVersion else Str v
            | None => latestVersion
            end in
          match render targetVersion with
          | Throws e => (w, Rejected e)
          | Returns versionText =>
              let versionUrl :=
                "https://registry.npmjs.org/" ++ encodeURIComponent packageName ++ "/"
                ++ versionText in
              let w := request w versionUrl in
              match fetchJson versionUrl with
              | Pending => (w, Pending)
              | Rejected e => (w, Rejected e)
              | Resolved versionData =>
                  if nullish versionData
                  then (w, Rejected (cannot_read versionData "dist"))
                  else
                    (w, Resolved
                          {| v_version := targetVersion;
                             v_tarball := get_opt (get versionData "dist") "tarball";
                             v_shasum := get_opt (get versionData "dist") "shasum" |})
              end
          end
  end.

Definition calculateChecksum (fs : fsT) (filePath : Path.path) (algorithm : string)
  : promise string :=
  match readFileSync fs filePath with
  | Returns content => Resolved (digest_hex algorithm content)
  | Throws e => Rejected e
  end.

Definition verifyChecksum (fs : fsT) (filePath : Path.path) (expectedHash : value)
           (algorithm : string) : promise bool :=
  match calculateChecksum fs filePath algorithm with
  | Pending => Pending
  | Rejected e => Rejected e
  | Resolved actualHash =>
      match expectedHash with
      | Str expected => Resolved (String.eqb (toLowerCase actualHash) (toLowerCase expected))
      | _ => Rejected "expectedHash.toLowerCase is not a function"
      end
  end.

(** [extractTarball]: the destination is created when missing; the three
    ways of unpacking are the platform's [untar]. *)
Definition extractTarball (fs : fsT) (tarballPath destDir : Path.path) : promise fsT :=
  let made :=
    if existsSync fs destDir then Returns fs else mkdirSync_recursive fs destDir in
  match made with
  | Throws e => Rejected e
  | Returns fs1 =>
      match readFileSync fs1 tarballPath with
      | Throws e => Rejected e
      | Returns content =>
          match untar content destDir fs1 with
          | Returns fs2 => Resolved fs2
          | Throws e => Rejected e
          end
      end
  end.

Definition tarball_name (packageName : string) (targetVersion : value) : string :=
  Re.replace_first [Re.Lit "/"] (fun _ => "-") packageName
  ++ "-" ++ to_string targetVersion ++ ".tgz".

Definition manifest_record (packageName : string) (targetVersion remoteShasum tarballUrl : value)
           (extractDir : Path.path) : value :=
  Obj [ ("packageName", Str packageName);
        ("version", targetVersion);
        ("shasum", remoteShasum);
        ("tarball", tarballUrl);
        ("downloadedAt", Str now_iso);
        ("extractDir", Str (Path.show extractDir)) ].

(** Everything after the cache check: download, verify, extract,
    record.  The version is quoted in the messages and in the name of
    the tarball. *)
Definition fetch_and_install (redirects : nat) (w : world) (packageName : string)
           (destDir : Path.path) (targetVersion remoteShasum tarballUrl : value)
  : world * promise NpmResult :=
  if negb (renders targetVersion)
  then (w, Rejected "Cannot convert object to primitive value")
  else
  let label := packageName ++ "@" ++ to_string targetVersion in
  let w := say w ("Downloading " ++ label ++ "...") in
  let tarballPath := Path.join destDir (tarball_name packageName targetVersion) in
  let '(w, downloaded) :=
    match tarballUrl with
    | Str url => downloadFile redirects w url tarballPath
    | _ => (w, Rejected "url.startsWith is not a function")
    end in
  match downloaded with
  | Pending => (w, Pending)
  | Rejected e => (w, Rejected e)
  | Resolved _ =>
      let '(w, verified) :=
        if truthy remoteShasum then
          let w := say w "Verifying checksum..." in
          match verifyChecksum (d_fs w) tarballPath remoteShasum "sha1" with
          | Pending => (w, Pending)
          | Rejected e => (w, Rejected e)
          | Resolved true => (w, Resolved tt)
          | Resolved false =>
              match unlinkSync (d_fs w) tarballPath with
              | Returns fs' =>
                  (with_fs w fs',
                   Rejected ("Checksum verification failed for " ++ label))
              | Throws e => (w, Rejected e)
              end
          end
        else (w, Resolved tt) in
      match verified with
      | Pending => (w, Pending)
      | Rejected e => (w, Rejected e)
      | Resolved _ =>
          let w := say w "Extracting package..." in
          let extractDir := Path.join destDir "package" in
          let w :=
            if existsSync (d_fs w) extractDir
            then with_fs w (rmSync_recursive_force (d_fs w) extractDir)
            else w in
          match extractTarball (d_fs w) tarballPath destDir with
          | Pending => (w, Pending)
          | Rejected e => (w, Rejected e)
          | Resolved fs1 =>
              let fs2 :=
                writeManifest fs1 destDir
                  (manifest_record packageName targetVersion remoteShasum tarballUrl
                                   extractDir) in
              let fs3 :=
                match unlinkSync fs2 tarballPath with
                | Returns fs' => fs'
                | Throws _ => fs2
                end in
              let w := with_fs w fs3 in
              match readdirSync fs3 extractDir with
              | Throws e => (w, Rejected e)
              | Returns files =>
                  (w, Resolved {| n_name := packageName; n_version := targetVersion;
                                  n_extractDir := extractDir; n_files := files;
                                  n_skipped := false; n_reason := None |})
              end
          end
      end
  end.

Definition downloadFromNpm (redirects : nat) (w : world) (packageName : string)
           (destDir : Path.path) (version : option string) (force : bool)
  : world * promise NpmResult :=
  let w := say w "Checking for updates..." in
  match getNpmPackageVersionInfo w packageName version with
  | (w, Pending) => (w, Pending)
  | (w, Rejected e) => (w, Rejected e)
  | (w, Resolved pkgVersionInfo) =>
      let targetVersion := v_version pkgVersionInfo in
      let remoteShasum := v_shasum pkgVersionInfo in
      let tarballUrl := v_tarball pkgVersionInfo in
      if negb (truthy tarballUrl) then
        match render targetVersion with
        | Throws e => (w, Rejected e)
        | Returns versionText =>
            (w, Rejected ("No tarball found for " ++ packageName ++ "@" ++ versionText))
        end
      else if force then
        fetch_and_install redirects w packageName destDir
                          targetVersion remoteShasum tarballUrl
      else
        match checkIfUpToDate (d_fs w) destDir (Str packageName)
                              targetVersion remoteShasum with
        | Throws e => (w, Rejected e)
        | Returns cacheCheck =>
            if upToDate cacheCheck then
              match render targetVersion with
              | Throws e => (w, Rejected e)
              | Returns versionText =>
                  let w := say w ("Already up-to-date: " ++ packageName ++ "@"
                                  ++ versionText) in
                  let extractDir := Path.join destDir "package" in
                  let files :=
                    if existsSync (d_fs w) extractDir then readdirSync (d_fs w) extractDir
                    else Returns [] in
                  match files with
                  | Throws e => (w, Rejected e)
                  | Returns files =>
                      (w, Resolved {| n_name := packageName; n_version := targetVersion;
                                      n_extractDir := extractDir; n_files := files;
                                      n_skipped := true;
                                      n_reason := Some (reason cacheCheck) |})
                  end
              end
            else
              fetch_and_install redirects
                (say w ("Update needed: " ++ reason cacheCheck))
                packageName destDir targetVersion remoteShasum tarballUrl
        end
  end.

End Npm.

End Downloader.

(* ===================================================================== *)
(** ** Json: a writer and a reader of JSON, for the sample platform       *)
(* ===================================================================== *)

Module Json.

(** *** The writer: [JSON.stringify(v, null, 2)] *)

Definition hex_digit (n : nat) : ascii :=
  if (n <? 10)%nat then ascii_of_nat (48 + n) else ascii_of_nat (87 + n).

Definition bs : string := String (ascii_of_nat 92) EmptyString.

Definition escape_char (a : ascii) : string :=
  let n := nat_of_ascii a in
  if (n =? 34)%nat then bs ++ dq
  else if (n =? 92)%nat then bs ++ bs
  else if (n =? 8)%nat then bs ++ "b"
  else if (n =? 12)%nat then bs ++ "f"
  else if (n =? 10)%nat then bs ++ "n"
  else if (n =? 13)%nat then bs ++ "r"
  else if (n =? 9)%nat then bs ++ "t"
  else if (n <? 32)%nat
  then bs ++ "u00" ++ String (hex_digit (n / 16)) (String (hex_digit (n mod 16)) EmptyString)
  else String a EmptyString.

Fixpoint escape (s : string) : string :=
  match s with
  | EmptyString => EmptyString
  | String a t => escape_char a ++ escape t
  end.

Definition quote (s : string) : string := dq ++ escape s ++ dq.

Definition layout (opening closing indent : string) (parts : list string) : string :=
  match parts with
  | [] => opening ++ closing
  | _ =>
      opening ++ nl ++ (indent ++ "  ")
      ++ Text.join ("," ++ nl ++ indent ++ "  ") parts
      ++ nl ++ indent ++ closing
  end.

Fixpoint write (indent : string) (v : value) {struct v} : string :=
  match v with
  | Undefined | Null => "null"
  | Bool true => "true"
  | Bool false => "false"
  | Num r => if json_number r then r else "null"
  | Str s => quote s
  | Arr items => layout "[" "]" indent (map (write (indent ++ "  ")) items)
  | Obj fields =>
      layout "{" "}" indent
        ((fix members (seen : list string) (fs : list (string * value)) : list string :=
            match fs with
            | [] => []
            | (k, x) :: rest =>
                if existsb (String.eqb k) seen then members seen rest
                else
                  match x with
                  | Undefined => members (k :: seen) rest
                  | _ =>
                      (quote k ++ ": " ++ write (indent ++ "  ") x)
                      :: members (k :: seen) rest
                  end
            end) [] fields)
  end.

Definition stringify (v : value) : option string :=
  match v with
  | Undefined => None
  | _ => Some (write EmptyString v)
  end.

(** *** The reader: [JSON.parse], one character at a time *)

Inductive frame :=
| FArr (done : list value)
| FObj (done : list (string * value))
| FMember (done : list (string * value)) (key : string).

Inductive mode :=
| MValue
| MFirst
| MOpen
| MKey
| MColon (key : string)
| MStr (key : bool) (acc : string)
| MEsc (key : bool) (acc : string)
| MHex (key : bool) (acc : string) (more : nat) (code : N)
| MNum (acc : string)
| MWord (rest : string) (v : value)
| MAfter (v : value).

Definition is_ws (a : ascii) : bool :=
  let n := nat_of_ascii a in
  (n =? 32)%nat || (n =? 9)%nat || (n =? 10)%nat || (n =? 13)%nat.

Definition delimiter (a : ascii) : bool :=
  is_ws a || Ascii.eqb a "," || Ascii.eqb a "]" || Ascii.eqb a "}".

Fixpoint set_field (k : string) (v : value) (fields : list (string * value))
  : list (string * value) :=
  match fields with
  | [] => [(k, v)]
  | (k', v') :: rest =>
      if String.eqb k' k then (k', v) :: rest else (k', v') :: set_field k v rest
  end.

Definition snoc (acc : string) (a : ascii) : string := acc ++ String a EmptyString.

Definition value_start (c : ascii) (st : list frame) : option (mode * list frame) :=
  if Ascii.eqb c (ascii_of_nat 34) then Some (MStr false EmptyString, st)
  else if Ascii.eqb c "{" then Some (MOpen, FObj [] :: st)
  else if Ascii.eqb c "[" then Some (MFirst, FArr [] :: st)
  else if Ascii.eqb c "t" then Some (MWord "rue" (Bool true), st)
  else if Ascii.eqb c "f" then Some (MWord "alse" (Bool false), st)
  else if Ascii.eqb c "n" then Some (MWord "ull" Null, st)
  else if Ascii.eqb c "-" || is_digit c then Some (MNum (String c EmptyString), st)
  else None.

Definition after_step (v : value) (st : list frame) (c : ascii)
  : option (mode * list frame) :=
  if is_ws c then Some (MAfter v, st)
  else
    match st with
    | FArr done :: st' =>
        if Ascii.eqb c "," then Some (MValue, FArr (done ++ [v])%list :: st')
        else if Ascii.eqb c "]" then Some (MAfter (Arr (done ++ [v])%list), st')
        else None
    | FMember done key :: st' =>
        if Ascii.eqb c "," then Some (MKey, FObj (set_field key v done) :: st')
        else if Ascii.eqb c "}" then Some (MAfter (Obj (set_field key v done)), st')
        else None
    | _ => None
    end.

Definition hex_value (c : ascii) : option N :=
  let n := N_of_ascii c in
  if (48 <=? n)%N && (n <=? 57)%N then Some (n - 48)%N
  else if (97 <=? n)%N && (n <=? 102)%N then Some (n - 87)%N
  else if (65 <=? n)%N && (n <=? 70)%N then Some (n - 55)%N
  else None.

(** The UTF-8 bytes of a code unit outside the surrogates. *)
Definition utf8_of (code : N) : option string :=
  if (code <? 128)%N then Some (String (ascii_of_N code) EmptyString)
  else if (code <? 2048)%N
  then Some (String (ascii_of_N (192 + code / 64))
               (String (ascii_of_N (128 + code mod 64)) EmptyString))
  else if (55296 <=? code)%N && (code <=? 57343)%N then None
  else Some (String (ascii_of_N (224 + code / 4096))
               (String (ascii_of_N (128 + (code / 64) mod 64))
                  (String (ascii_of_N (128 + code mod 64)) EmptyString))).

Definition closed (key : bool) (s : string) : mode :=
  if key then MColon s else MAfter (Str s).

Definition step (m : mode) (st : list frame) (c : ascii) : option (mode * list frame) :=
  match m with
  | MValue => if is_ws c then Some (MValue, st) else value_start c st
  | MFirst =>
      if is_ws c then Some (MFirst, st)
      else if Ascii.eqb c "]"
      then match st with
           | FArr [] :: st' => Some (MAfter (Arr []), st')
           | _ => None
           end
      else value_start c st
  | MOpen =>
      if is_ws c then Some (MOpen, st)
      else if Ascii.eqb c "}"
      then match st with
           | FObj [] :: st' => Some (MAfter (Obj []), st')
           | _ => None
           end
      else if Ascii.eqb c (ascii_of_nat 34) then Some (MStr true EmptyString, st)
      else None
  | MKey =>
      if is_ws c then Some (MKey, st)
      else if Ascii.eqb c (ascii_of_nat 34) then Some (MStr true EmptyString, st)
      else None
  | MColon key =>
      if is_ws c then Some (MColon key, st)
      else if Ascii.eqb c ":"
      then match st with
           | FObj done :: st' => Some (MValue, FMember done key :: st')
           | _ => None
           end
      else None
  | MStr key acc =>
      if Ascii.eqb c (ascii_of_nat 34) then Some (closed key acc, st)
      else if Ascii.eqb c (ascii_of_nat 92) then Some (MEsc key acc, st)
      else if (nat_of_ascii c <? 32)%nat then None
      else Some (MStr key (snoc acc c), st)
  | MEsc key acc =>
      if Ascii.eqb c (ascii_of_nat 34) || Ascii.eqb c (ascii_of_nat 92) || Ascii.eqb c "/"
      then Some (MStr key (snoc acc c), st)
      else if Ascii.eqb c "b" then Some (MStr key (snoc acc (ascii_of_nat 8)), st)
      else if Ascii.eqb c "f" then Some (MStr key (snoc acc (ascii_of_nat 12)), st)
      else if Ascii.eqb c "n" then Some (MStr key (snoc acc (ascii_of_nat 10)), st)
      else if Ascii.eqb c "r" then Some (MStr key (snoc acc (ascii_of_nat 13)), st)
      else if Ascii.eqb c "t" then Some (MStr key (snoc acc (ascii_of_nat 9)), st)
      else if Ascii.eqb c "u" then Some (MHex key acc 3 0, st)
      else None
  | MHex key acc more code =>
      match hex_value c with
      | None => None
      | Some h =>
          match more with
          | S more' => Some (MHex key acc more' (16 * code + h)%N, st)
          | 0 =>
              match utf8_of (16 * code + h)%N with
              | Some bytes => Some (MStr key (acc ++ bytes), st)
              | None => None
              end
          end
      end
  | MNum acc =>
      if delimiter c
      then if json_number acc then after_step (Num acc) st c else None
      else Some (MNum (snoc acc c), st)
  | MWord rest v =>
      match rest with
      | String c' rest' =>
          if Ascii.eqb c c'
          then Some (if is_empty rest' then MAfter v else MWord rest' v, st)
          else None
      | EmptyString => None
      end
  | MAfter v => after_step v st c
  end.

Definition finish (m : mode) (st : list frame) : option value :=
  match st with
  | [] =>
      match m with
      | MAfter v => Some v
      | MNum acc => if json_number acc then Some (Num acc) else None
      | _ => None
      end
  | _ => None
  end.

Fixpoint run (s : string) (m : mode) (st : list frame) : option value :=
  match s with
  | EmptyString => finish m st
  | String c t =>
      match step m st c with
      | Some (m', st') => run t m' st'
      | None => None
      end
  end.

Definition parse (text : string) : option value := run text MValue [].






(** A mode in which white space is passed over. *)
Definition skips (m : mode) : Prop :=
  forall st c, is_ws c = true -> step m st c = Some (m, st).




End Json.

(* ===================================================================== *)
(** ** Sample: a small concrete platform, to run the model on            *)
(* ===================================================================== *)

Module Sample.
Import Downloader.

Definition lower_char (a : ascii) : ascii :=
  let n := nat_of_ascii a in
  if (65 <=? n)%nat && (n <=? 90)%nat then ascii_of_nat (n + 32) else a.

(** [toLowerCase] on ASCII text. *)
Fixpoint lower (s : string) : string :=
  match s with
  | EmptyString => EmptyString
  | String a t => String (lower_char a) (lower t)
  end.

(** [encodeURIComponent] on names made of letters, digits, [-], [.],
    [@] and [/]. *)
Fixpoint encode (s : string) : string :=
  match s with
  | EmptyString => EmptyString
  | String a t =>
      if Ascii.eqb a "@" then "%40" ++ encode t
      else if Ascii.eqb a "/" then "%2F" ++ encode t
      else String a (encode t)
  end.

(** A stand-in for a digest: the length of the content, in decimal. *)
Definition toy_digest (algorithm content : string) : string :=
  algorithm ++ ":" ++ render_Z (Z.of_nat (String.length content)).

(** The registry answers for one package, [demo], at version 2.0.76; the
    tarball is served in two chunks. *)
Definition registry (shasum : string) (url : string) : promise value :=
  if String.eqb url "https://registry.npmjs.org/demo" then
    Resolved (Obj [("name", Str "demo"); ("dist-tags", Obj [("latest", Str "2.0.76")])])
  else if String.eqb url "https://registry.npmjs.org/demo/2.0.76" then
    Resolved (Obj [("dist", Obj [("tarball", Str "https://registry.npmjs.org/demo/-/demo-2.0.76.tgz");
                                 ("shasum", Str shasum)])])
  else Rejected "HTTP 404".

Definition server (url : string) : list net_event :=
  if String.eqb url "https://registry.npmjs.org/demo/-/demo-2.0.76.tgz"
  then [Response 200 "OK" None (Some 8); Data "tar-"; Data "ball"; Finish]
  else if String.eqb url "https://slow.example/file"
  then [Response 200 "OK" None (Some 6); Data "abc"; Timeout]
  else [Response 404 "Not Found" None None].

(** Unpacking creates [package/cli.js] under the destination. *)
Definition unpack (content : string) (destDir : Path.path) (fs : fsT) : outcome fsT :=
  Returns (<[(destDir ++ ["package"; "cli.js"])%list := File content]>
             (<[(destDir ++ ["package"])%list := Dir]> fs)).

Definition runtime (shasum : string) : Runtime :=
  {| JSON_parse := Json.parse;
     JSON_stringify := Json.stringify;
     digest_hex := toy_digest;
     toLowerCase := lower;
     encodeURIComponent := encode;
     now_iso := "2026-01-03T10:30:00.000Z";
     http_get := server;
     fetchJson := registry shasum;
     untar := unpack |}.

Definition manifest_2_0_75 : value :=
  Obj [ ("packageName", Str "demo"); ("version", Str "2.0.75");
        ("shasum", Str "sha1:8") ].

Definition empty_world : world :=
  {| d_fs := ∅; d_status := []; d_progress := []; d_requests := [] |}.

(** A cache directory, empty, and one that holds an extracted package. *)
Definition cache_only : fsT := {[ ["cache"] := Dir ]}.

Definition cache_with_package : fsT :=
  <[ ["cache"; "package"] := Dir ]> cache_only.



(** A cache directory where a directory has the name of the manifest. *)
Definition cache_with_manifest_directory : fsT :=
  <[ ["cache"; MANIFEST_FILENAME] := Dir ]> cache_with_package.

(** A file where the cache directory should be. *)
Definition cache_is_file : fsT := {[ ["cache"] := File "not a directory" ]}.

(** The characters that are syntax in a regular expression. *)
Definition syntax_char (a : ascii) : bool :=
  existsb (Nat.eqb (nat_of_ascii a))
          [92; 94; 36; 46; 42; 43; 63; 40; 41; 91; 93; 123; 125; 124].

(** The text a pattern stands for when every syntax character in it is
    escaped. *)
Fixpoint unescape (source : string) : option string :=
  match source with
  | EmptyString => Some EmptyString
  | String a t =>
      if Ascii.eqb a (ascii_of_nat 92) then
        match t with
        | String b u => if syntax_char b then String b <$> unescape u else None
        | EmptyString => None
        end
      else if syntax_char a then None
      else String a <$> unescape t
  end.

(** The pattern without its opening parentheses, when none of them
    opens a group of a special kind. *)
Fixpoint without_open_groups (source : string) : option string :=
  match source with
  | EmptyString => Some EmptyString
  | String a t =>
      if Ascii.eqb a (ascii_of_nat 92) then
        match t with
        | String b u => (fun r => String a (String b r)) <$> without_open_groups u
        | EmptyString => None
        end
      else if Ascii.eqb a "(" then
        match t with
        | String b _ => if Ascii.eqb b "?" then None else without_open_groups t
        | EmptyString => Some EmptyString
        end
      else String a <$> without_open_groups t
  end.

(** A small engine.  It is JavaScript's on the patterns it knows:
    a text in which every syntax character is escaped is the pattern of
    that text, and such a text with opening parentheses that nothing
    closes is no pattern.  Other pattern syntax is beyond it, and it
    says so.  Bytes are decoded as they are, which is right for
    well-formed UTF-8, all the examples hold. *)
Definition compile (source : string) : outcome Re.regexp :=
  match unescape source with
  | Some text => Returns (Re.literal [Re.Lit text])
  | None =>
      match without_open_groups source with
      | Some rest =>
          match unescape rest with
          | Some _ =>
              Throws ("Invalid regular expression: /" ++ source
                      ++ "/: Unterminated group")
          | None => Throws "pattern syntax beyond the sample engine"
          end
      | None => Throws "pattern syntax beyond the sample engine"
      end
  end.

Definition engine : Builder.Engine :=
  {| Builder.RegExp := compile; Builder.utf8 := fun bytes => bytes |}.

(** A source directory with an entry point that has a shebang line and
    none of the texts the patterns look for. *)
Definition plain_source : string :=
  "#!/usr/bin/env node" ++ nl ++ "console.log(1)" ++ nl.

Definition plain_project : Builder.world :=
  {| Builder.w_fs := <[ ["app"; "cli.js"] := File plain_source ]> {[ ["app"] := Dir ]};
     Builder.w_status := []; Builder.w_progress := [] |}.

Definition claude_code_tool : option Builder.ToolConfig :=
  Some {| Builder.name := Some "Claude Code";
          Builder.build := Some {| Builder.entryPoint := Some "cli.js";
                           Builder.envPrefix := Some "CLAUDE_CODE";
                           Builder.binaryName := Some "claude-code" |} |}.

Definition empty_project : Builder.world :=
  {| Builder.w_fs := ∅; Builder.w_status := []; Builder.w_progress := [] |}.



(** The project with a directory where the prepared file goes. *)
Definition occupied_project : Builder.world :=
  {| Builder.w_fs := <[ ["app"; "cli-prepared.js"] := Dir ]> (Builder.w_fs plain_project);
     Builder.w_status := []; Builder.w_progress := [] |}.

(** A tool whose entry point lies outside the source directory. *)
Definition outside_tool : option Builder.ToolConfig :=
  Some {| Builder.name := Some "Outside";
          Builder.build := Some {| Builder.entryPoint := Some "../app/cli.js";
                           Builder.envPrefix := Some "CLAUDE_CODE";
                           Builder.binaryName := Some "outside" |} |}.

(** A tool whose environment prefix is an opening parenthesis. *)
Definition paren_tool : option Builder.ToolConfig :=
  Some {| Builder.name := Some "Paren";
          Builder.build := Some {| Builder.entryPoint := Some "cli.js";
                           Builder.envPrefix := Some "(";
                           Builder.binaryName := Some "paren" |} |}.

(** A host with Bun installed whose compiler builds for Windows x64 only:
    for that target it writes the executable and exits with 0, for any
    other it writes to its error stream and exits with 1. *)
Definition toolchain : Builder.Toolchain :=
  {| Builder.findBunPath := Some "bun";
     Builder.spawn_bun :=
       fun _ args _ fs =>
         match args with
         | [_; _; _; _; target; _; _] =>
             if String.eqb target "--target=bun-windows-x64"
             then (<[ ["dist"; "windows"; "claude-code-windows-x64.exe"] := File "MZ" ]> fs,
                   Builder.Closed (Some 0%Z) ["compiled"] EmptyString "1.5")
             else (fs, Builder.Closed (Some 1%Z) [] "error: unsupported target" "0.2")
         | _ => (fs, Builder.SpawnError "spawn bun ENOENT")
         end;
     Builder.megabytes := fun _ => "0.0" |}.

Definition default_options : Builder.BuildOptions :=
  {| Builder.toolId := None; Builder.toolConfig := None |}.

End Sample.

(* ===================================================================== *)
(** ** The vocabulary of the properties                                   *)
(* ===================================================================== *)

Section BuilderVocabulary.
Import Re Builder.

(** The binary name a tool configuration gives, when it gives one that
    is not empty. *)
Definition configured_binary_name (toolConfig : option ToolConfig) : option string :=
  match build_field binaryName toolConfig with
  | Some b => if is_empty b then None else Some b
  | None => None
  end.

(** The entry point [prepareSource] reads: the configured one, [cli.js]
    when the configuration names none. *)
Definition entry_path (sourceDir : Path.path) (toolConfig : option ToolConfig)
  : Path.path :=
  Path.join sourceDir
    (match build_field entryPoint toolConfig with
     | Some e => if is_empty e then "cli.js" else e
     | None => "cli.js"
     end).

(** The entry [buildTargets] pushes for one target. *)
Definition entry_of (targetId : string) (o : outcome BuildResult) : BatchEntry :=
  match o with
  | Returns result => Built result
  | Throws message => Failed targetId message
  end.

(** The block [addEmbeddedImports] inserts for a source directory. *)
Definition embedded_block (fs : fsT) (sourceDir : Path.path) : string :=
  addEmbeddedImports fs EmptyString sourceDir.



(** The messages a successful [prepareSource] passes to [onStatus]. *)
Definition prepare_status (entryPoint targetPlatform : string)
           (preparedPath : Path.path) : list string :=
  List.app
    [ "Reading CLI source (" ++ entryPoint ++ ")...";
      "Adding embedded file imports..." ]
    (List.app
       (if String.eqb targetPlatform "windows"
        then ["Applying Windows-specific patches..."] else [])
       [ "Applying common patches...";
         "Prepared source written to " ++ Path.show preparedPath ]).






End BuilderVocabulary.

Section PatcherVocabulary.
Import Re Builder.
Context `{Engine}.


(** The text [prepareSource] writes for the text of the entry point:
    the three transforms in turn. *)
Definition prepared_text (fs : fsT) (source : string) (sourceDir : Path.path)
           (targetPlatform : string) (toolConfig : option ToolConfig)
  : outcome string :=
  let embedded := addEmbeddedImports fs source sourceDir in
  match (if String.eqb targetPlatform "windows"
         then applyWindowsPatches embedded toolConfig
         else Returns embedded) with
  | Throws e => Throws e
  | Returns content => applyCommonPatches content toolConfig
  end.

(** The messages [prepareSource] has passed to [onStatus] when a patch
    throws. *)
Definition patching_status (entryPoint targetPlatform : string) : list string :=
  List.app
    [ "Reading CLI source (" ++ entryPoint ++ ")...";
      "Adding embedded file imports..." ]
    [ if String.eqb targetPlatform "windows"
      then "Applying Windows-specific patches..."
      else "Applying common patches..." ].

End PatcherVocabulary.

Section DownloaderVocabulary.
Import Downloader.
Context `{Runtime}.


(** The reason the cache gives, when it gives one. *)
Definition reason_of (o : outcome CacheCheck) : string :=
  match o with
  | Returns check => reason check
  | Throws _ => EmptyString
  end.

(** The world in which the download of the tarball starts. *)
Definition before_download (w0 : world) (packageName : string) (destDir : Path.path)
           (info : VersionInfo) (force : bool) : world :=
  say (if force then w0
       else say w0 ("Update needed: "
                    ++ reason_of (checkIfUpToDate (d_fs w0) destDir (Str packageName)
                                                  (v_version info) (v_shasum info))))
      ("Downloading " ++ (packageName ++ "@" ++ to_string (v_version info)) ++ "...").





End DownloaderVocabulary.

(* ===================================================================== *)
(** * Properties                                                          *)
(* ===================================================================== *)

(** ** Text and patterns *)

Section TextFacts.

Lemma append_empty_r (s : string) : s ++ EmptyString = s.
Proof. induction s as [|a s IH]; simpl; [reflexivity | now rewrite IH]. Qed.

Lemma append_assoc (a b c : string) : (a ++ b) ++ c = a ++ b ++ c.
Proof. induction a as [|x a IH]; simpl; [reflexivity | now rewrite IH]. Qed.

Lemma length_append (a b : string) :
  String.length (a ++ b) = String.length a + String.length b.
Proof. induction a as [|x a IH]; simpl; [reflexivity | now rewrite IH]. Qed.

Lemma sdrop_append (a b : string) : sdrop (String.length a) (a ++ b) = b.
Proof. induction a as [|x a IH]; simpl; [reflexivity | exact IH]. Qed.





Lemma ends_with_append (a suf : string) : ends_with suf (a ++ suf) = true.
Proof.
  unfold ends_with. rewrite length_append.
  replace (String.length a + String.length suf - String.length suf)
    with (String.length a) by lia.
  rewrite sdrop_append, String.eqb_refl, andb_true_r.
  apply Nat.leb_le. lia.
Qed.

End TextFacts.

(** ** Builder: targets *)

Section TargetFacts.
Import Builder.

Lemma binary_name_default (toolId : string) (toolConfig : option ToolConfig) :
  or_default (build_field binaryName toolConfig) toolId
  = match configured_binary_name toolConfig with Some b => b | None => toolId end.
Proof.
  unfold configured_binary_name, or_default, or_else.
  destruct (build_field binaryName toolConfig) as [b|]; [| reflexivity].
  now destruct (is_empty b).
Qed.

(** C3.  [generateBuildTargets] yields one target per template, under the
    template's id and in the template order; the target of template [T]
    with id [id] copies [T] and has output [B-id] followed by [T]'s
    extension, [B] being the configured binary name, or the tool id when
    the configuration gives none (an empty name counts as none).  The
    windows-x64 output ends in [.exe] and the linux-arm64 output is
    [B-linux-arm64], without extension. *)
Theorem generateBuildTargets_outputs :
  forall (toolId : string) (toolConfig : option ToolConfig),
    let B := match configured_binary_name toolConfig with
             | Some b => b
             | None => toolId
             end in
    let targets := generateBuildTargets toolId toolConfig in
    map fst targets = map fst BUILD_TARGET_TEMPLATES
    /\ length targets = length BUILD_TARGET_TEMPLATES
    /\ (forall id T, In (id, T) BUILD_TARGET_TEMPLATES ->
          lookup_target id targets
          = Some {| template := T; output := B ++ "-" ++ id ++ extension T |})
    /\ (exists t, lookup_target "windows-x64" targets = Some t
                  /\ ends_with ".exe" (output t) = true)
    /\ (exists t, lookup_target "linux-arm64" targets = Some t
                  /\ output t = B ++ "-linux-arm64").
Proof.
  intros toolId toolConfig B targets.
  subst targets. unfold generateBuildTargets.
  rewrite binary_name_default. fold B.
  split; [reflexivity |]. split; [reflexivity |].
  split.
  - intros id T HIn. simpl in HIn.
    repeat (destruct HIn as [HIn | HIn];
            [injection HIn as <- <-; cbn; now rewrite ?append_empty_r |]).
    contradiction.
  - split.
    + eexists; split; [reflexivity |]. cbn.
      replace (B ++ "-windows-x64.exe") with ((B ++ "-windows-x64") ++ ".exe")
        by now rewrite append_assoc.
      apply ends_with_append.
    + eexists; split; reflexivity.
Qed.

(** The examples the specification gives. *)
Example generateBuildTargets_codex :
  (output <$> lookup_target "windows-x64"
     (generateBuildTargets "codex"
        (Some {| name := None;
                 build := Some {| entryPoint := None; envPrefix := None;
                                  binaryName := Some "codex" |} |})))
  = Some "codex-windows-x64.exe"
  /\ (output <$> lookup_target "linux-arm64" (generateBuildTargets "codex" None))
     = Some "codex-linux-arm64"
  /\ (output <$> lookup_target "android-arm64" BUILD_TARGETS)
     = Some "claude-code-android-arm64".
Proof. repeat split. Qed.

Lemma getCurrentTarget_cases (process_platform process_arch : string) :
  getCurrentTarget process_platform process_arch
  = if String.eqb process_platform "win32"
    then (if String.eqb process_arch "x64" then "windows-x64" else "linux-x64")
    else if String.eqb process_platform "darwin"
    then (if String.eqb process_arch "x64" then "macos-x64"
          else if String.eqb process_arch "arm64" then "macos-arm64" else "linux-x64")
    else (if String.eqb process_arch "x64" then "linux-x64"
          else if String.eqb process_arch "arm64" then "linux-arm64" else "linux-x64").
Proof.
  unfold getCurrentTarget, host_platform, matches_host.
  destruct (String.eqb process_platform "win32");
    [| destruct (String.eqb process_platform "darwin")];
    cbn;
    rewrite ?(String.eqb_sym _ process_arch);
    destruct (String.eqb process_arch "x64") eqn:Hx; cbn; try reflexivity;
    rewrite ?(String.eqb_sym _ process_arch);
    destruct (String.eqb process_arch "arm64") eqn:Ha; cbn; try reflexivity;
    apply String.eqb_eq in Hx; apply String.eqb_eq in Ha; congruence.
Qed.

(** C8.  The host platform is mapped to windows (win32), macos (darwin)
    or linux (anything else); the result is the id of the target of
    standard variant with the host's platform and architecture, and
    linux-x64 when the table has no such target.  On a Windows x64 host
    the id starts with [windows-]. *)
Theorem getCurrentTarget_spec :
  forall (process_platform process_arch : string),
    let host := host_platform process_platform in
    host_platform "win32" = "windows"
    /\ host_platform "darwin" = "macos"
    /\ (process_platform <> "win32" -> process_platform <> "darwin" -> host = "linux")
    /\ In host ["windows"; "macos"; "linux"]
    /\ (forall id t,
          In (id, t) BUILD_TARGETS ->
          platform (template t) = host ->
          arch (template t) = process_arch ->
          variant (template t) = "standard" ->
          getCurrentTarget process_platform process_arch = id)
    /\ ((forall id t,
           In (id, t) BUILD_TARGETS ->
           ~ (platform (template t) = host
              /\ arch (template t) = process_arch
              /\ variant (template t) = "standard")) ->
        getCurrentTarget process_platform process_arch = "linux-x64")
    /\ starts_with "windows-" (getCurrentTarget "win32" "x64") = true.
Proof.
  intros process_platform process_arch host.
  split; [reflexivity |]. split; [reflexivity |].
  split.
  { intros Hw Hd. subst host. unfold host_platform.
    apply String.eqb_neq in Hw, Hd. now rewrite Hw, Hd. }
  split.
  { subst host. unfold host_platform.
    destruct (String.eqb process_platform "win32");
      [| destruct (String.eqb process_platform "darwin")]; simpl; tauto. }
  split.
  { intros id t HIn Hp Ha Hv.
    rewrite getCurrentTarget_cases.
    subst host. unfold host_platform in Hp.
    simpl in HIn.
    repeat (destruct HIn as [HIn | HIn];
            [injection HIn as <- <-; cbn in Hp, Ha, Hv;
             first [ discriminate Hv
                   | subst process_arch; revert Hp;
                     destruct (String.eqb process_platform "win32");
                     [| destruct (String.eqb process_platform "darwin")];
                     intros Hp; try discriminate Hp; reflexivity ] |]).
    contradiction. }
  split; [| reflexivity].
  intros Hnone.
  rewrite getCurrentTarget_cases.
  subst host. unfold host_platform in Hnone. revert Hnone.
  destruct (String.eqb process_platform "win32");
    [| destruct (String.eqb process_platform "darwin")];
    intros Hnone;
    destruct (String.eqb process_arch "x64") eqn:Hx; try reflexivity;
    try (destruct (String.eqb process_arch "arm64") eqn:Ha; try reflexivity);
    try apply String.eqb_eq in Hx; try apply String.eqb_eq in Ha; subst;
    exfalso.
  all: first
    [ solve [eapply (Hnone "windows-x64"); [simpl; eauto 14 | cbn; repeat split]]
    | solve [eapply (Hnone "macos-x64"); [simpl; eauto 14 | cbn; repeat split]]
    | solve [eapply (Hnone "macos-arm64"); [simpl; eauto 14 | cbn; repeat split]]
    | solve [eapply (Hnone "linux-arm64"); [simpl; eauto 14 | cbn; repeat split]] ].
Qed.

End TargetFacts.

(** ** Builder: missing entry point, batch builds *)

Section PrepareFacts.
Import Builder.
Context `{Engine}.

(** C5.  When the entry point is not in the source directory,
    [prepareSource] throws [CLI source not found at ...] and leaves the
    world as it was: no file is written, nothing is changed in the file
    system and no status is reported. *)
Theorem prepareSource_missing_entry :
  forall (w : world) (sourceDir : Path.path) (targetPlatform : string)
         (toolConfig : option ToolConfig),
    existsSync (w_fs w) (entry_path sourceDir toolConfig) = false ->
    prepareSource w sourceDir targetPlatform toolConfig
    = (w, Throws ("CLI source not found at "
                  ++ Path.show (entry_path sourceDir toolConfig)))
    /\ w_fs (fst (prepareSource w sourceDir targetPlatform toolConfig)) = w_fs w
    /\ (forall name,
          w_fs (fst (prepareSource w sourceDir targetPlatform toolConfig))
            !! Path.join sourceDir name
          = w_fs w !! Path.join sourceDir name).
Proof.
  intros w sourceDir targetPlatform toolConfig Hmissing.
  assert (Hrun : prepareSource w sourceDir targetPlatform toolConfig
                 = (w, Throws ("CLI source not found at "
                               ++ Path.show (entry_path sourceDir toolConfig)))).
  { unfold prepareSource, entry_path in *.
    unfold or_default, or_else.
    destruct (build_field entryPoint toolConfig) as [e|];
      [destruct (is_empty e) |]; now rewrite Hmissing. }
  rewrite Hrun. repeat split.
Qed.

End PrepareFacts.

Lemma prepareSource_missing_entry_witness :
  existsSync (Builder.w_fs Sample.empty_project) (entry_path ["work"; "package"] None)
  = false
  /\ @Builder.prepareSource Sample.engine Sample.empty_project ["work"; "package"]
       "linux" None
     = (Sample.empty_project, Throws "CLI source not found at /work/package/cli.js").
Proof.
  split; [reflexivity |].
  apply (@prepareSource_missing_entry Sample.engine
           Sample.empty_project ["work"; "package"] "linux" None).
  reflexivity.
Defined.

Section BatchFacts.
Import Builder.
Context `{Engine} `{Toolchain}.

Lemma buildTargets_from_acc (acc : list BatchEntry) (w : world) (ids : list string)
      (src out : Path.path) (opts : BuildOptions) :
  buildTargets_from acc w ids src out opts
  = (fst (buildTargets_from [] w ids src out opts),
     (acc ++ snd (buildTargets_from [] w ids src out opts))%list).
Proof.
  revert acc w. induction ids as [|id ids IH]; intros acc w; simpl.
  - now rewrite app_nil_r.
  - destruct (buildTarget w id src out opts) as [w' o].
    rewrite IH. rewrite (IH [_]). simpl. now rewrite <- app_assoc.
Qed.

Lemma buildTargets_cons (w : world) (id : string) (ids : list string)
      (src out : Path.path) (opts : BuildOptions) :
  buildTargets w (id :: ids) src out opts
  = (fst (buildTargets (fst (buildTarget w id src out opts)) ids src out opts),
     entry_of id (snd (buildTarget w id src out opts))
     :: snd (buildTargets (fst (buildTarget w id src out opts)) ids src out opts)).
Proof.
  unfold buildTargets. simpl.
  destruct (buildTarget w id src out opts) as [w' o].
  rewrite buildTargets_from_acc. reflexivity.
Qed.

Lemma buildTarget_result_target (w w' : world) (id : string) (src out : Path.path)
      (opts : BuildOptions) (r : BuildResult) :
  buildTarget w id src out opts = (w', Returns r) -> r_target r = id.
Proof.
  unfold buildTarget, buildTarget_inherited. intros Heq.
  repeat case_match; simplify_eq; reflexivity.
Qed.

Lemma entry_of_target (w : world) (id : string) (src out : Path.path)
      (opts : BuildOptions) :
  entry_target (entry_of id (snd (buildTarget w id src out opts))) = id.
Proof.
  destruct (buildTarget w id src out opts) as [w' [r|m]] eqn:Heq; simpl.
  - eapply buildTarget_result_target; eauto.
  - reflexivity.
Qed.

(** C6.  [buildTargets] returns one entry per requested id, in the order
    of the list: entry [i] is what [buildTarget] gives for the [i]-th id
    when started in the world the first [i] builds left, the build result
    when it returned and [{ success: false, target, error }] with the
    message of the error when it threw; a failure does not stop the
    ids after it from being built. *)
Theorem buildTargets_batch :
  forall (w : world) (targetIds : list string) (sourceDir outputDir : Path.path)
         (options : BuildOptions),
    let results := snd (buildTargets w targetIds sourceDir outputDir options) in
    length results = length targetIds
    /\ map entry_target results = targetIds
    /\ (forall i targetId,
          targetIds !! i = Some targetId ->
          let before :=
            fst (buildTargets w (take i targetIds) sourceDir outputDir options) in
          results !! i
          = Some (match snd (buildTarget before targetId sourceDir outputDir options) with
                  | Returns result => Built result
                  | Throws message => Failed targetId message
                  end))
    /\ (forall i targetId message,
          targetIds !! i = Some targetId ->
          snd (buildTarget
                 (fst (buildTargets w (take i targetIds) sourceDir outputDir options))
                 targetId sourceDir outputDir options) = Throws message ->
          exists e, results !! i = Some e
                    /\ entry_success e = false
                    /\ entry_target e = targetId
                    /\ e = Failed targetId message).
Proof.
  intros w targetIds sourceDir outputDir options results.
  assert (Hmap : map entry_target results = targetIds).
  { subst results. revert w.
    induction targetIds as [|id ids IH]; intros w; [reflexivity |].
    rewrite buildTargets_cons. simpl. rewrite entry_of_target. f_equal. apply IH. }
  assert (Hnth : forall i targetId,
             targetIds !! i = Some targetId ->
             results !! i
             = Some (entry_of targetId
                       (snd (buildTarget
                               (fst (buildTargets w (take i targetIds)
                                                  sourceDir outputDir options))
                               targetId sourceDir outputDir options)))).
  { subst results. clear Hmap. revert w.
    induction targetIds as [|id ids IH]; intros w i targetId Hi; [discriminate |].
    rewrite buildTargets_cons.
    destruct i as [|i]; simpl in Hi |- *.
    - now injection Hi as ->.
    - rewrite buildTargets_cons. simpl. now apply IH. }
  split; [| split; [exact Hmap | split]].
  - rewrite <- (length_map entry_target results). now rewrite Hmap.
  - intros i targetId Hi before. subst before. now apply Hnth.
  - intros i targetId message Hi Hthrow.
    eexists. split; [apply Hnth; exact Hi |].
    rewrite Hthrow. simpl. repeat split.
Qed.

End BatchFacts.

(** A batch of three: the first target builds, the second is unknown,
    the third fails in the compiler; every one has its entry. *)
Example buildTargets_three :
  snd (@Builder.buildTargets Sample.engine Sample.toolchain Sample.plain_project
         ["windows-x64"; "no-such-target"; "linux-x64"] ["app"] ["dist"]
         Sample.default_options)
  = [ Builder.Built
        {| Builder.r_target := "windows-x64"; Builder.r_toolId := "claude-code";
           Builder.r_output := ["dist"; "windows"; "claude-code-windows-x64.exe"];
           Builder.r_elapsed := "1.5s"; Builder.r_size := 2;
           Builder.r_sizeMB := "0.0" |};
      Builder.Failed "no-such-target" "Unknown target: no-such-target";
      Builder.Failed "linux-x64"
        ("Build failed for linux-x64:" ++ nl ++ "error: unsupported target") ].
Proof. vm_compute. reflexivity. Qed.

(** ** Downloader: the manifest cache *)

Section CacheFacts.
Import Downloader.
Context `{Runtime}.

Lemma join_manifest (destDir : Path.path) :
  Path.join destDir MANIFEST_FILENAME = (destDir ++ [MANIFEST_FILENAME])%list.
Proof. reflexivity. Qed.



End CacheFacts.

Section FsFacts.

Lemma node_at_snoc (fs : fsT) (p : Path.path) (x : string) :
  node_at fs (p ++ [x])%list = fs !! (p ++ [x])%list.
Proof. now destruct p. Qed.


Lemma is_dir_exists (fs : fsT) (p : Path.path) :
  is_dir fs p = true -> existsSync fs p = true.
Proof. unfold is_dir, existsSync. now destruct (node_at fs p) as [[]|]. Qed.




End FsFacts.

(** ** The sample platform: its JSON reads what it writes *)

Section JsonFacts.
Import Json.


(** *** Numbers *)










(** *** The reader on the pieces the writer writes *)








Lemma skips_colon (k : string) : skips (MColon k).
Proof. intros st c Hc. simpl. now rewrite Hc. Qed.








(** *** Objects and arrays *)


























(** *** What is read back is the image of what was written *)








End JsonFacts.


Section ManifestFacts.
Import Downloader.
Context `{Runtime} `{!JsonLaws}.










End ManifestFacts.

Section ManifestExamples.
Import Downloader.

(** The scenario of the specification: the manifest says 2.0.75, the
    registry 2.0.76. *)
Example checkIfUpToDate_version_mismatch :
  let R := Sample.runtime "sha1:8" in
  let fs := @writeManifest R Sample.cache_with_package ["cache"] Sample.manifest_2_0_75 in
  @checkIfUpToDate R fs ["cache"] (Str "demo") (Str "2.0.76") (Str "sha1:8")
  = Returns {| upToDate := false; localVersion := Str "2.0.75";
               reason := "Version mismatch (local: 2.0.75, remote: 2.0.76)" |}.
Proof. vm_compute. reflexivity. Qed.




(** Where a directory has the name of the manifest, nothing is written
    and nothing is read back. *)
Example manifest_roundtrip_manifest_directory :
  @writeManifest (Sample.runtime "sha1:8") Sample.cache_with_manifest_directory ["cache"]
                 Sample.manifest_2_0_75
  = Sample.cache_with_manifest_directory
  /\ @readManifest (Sample.runtime "sha1:8") Sample.cache_with_manifest_directory ["cache"]
     = Null.
Proof. split; vm_compute; reflexivity. Qed.

(** Where the destination is a file, nothing is written and nothing is
    read back. *)
Example manifest_roundtrip_destination_is_file :
  @writeManifest (Sample.runtime "sha1:8") Sample.cache_is_file ["cache"]
                 Sample.manifest_2_0_75
  = Sample.cache_is_file
  /\ @readManifest (Sample.runtime "sha1:8") Sample.cache_is_file ["cache"] = Null.
Proof. split; vm_compute; reflexivity. Qed.

(** A version that is not a finite number does not come back, and the
    check with the same version answers with a mismatch. *)
Example manifest_roundtrip_not_a_number :
  let R := Sample.runtime "sha1:8" in
  let data := Obj [("packageName", Str "demo"); ("version", Num "NaN")] in
  let fs := @writeManifest R Sample.cache_with_package ["cache"] data in
  @readManifest R fs ["cache"] = Obj [("packageName", Str "demo"); ("version", Null)]
  /\ @checkIfUpToDate R fs ["cache"] (Str "demo") (Num "NaN") Undefined
     = Returns {| upToDate := false; localVersion := Null;
                  reason := "Version mismatch (local: null, remote: NaN)" |}.
Proof. split; vm_compute; reflexivity. Qed.

End ManifestExamples.

(** ** Downloader: transport errors and partial files *)

Section TransportFacts.
Import Downloader.
Context `{Runtime}.

Lemma downloadFile_events_unfold (redirects : nat) (events : list net_event)
      (destPath : Path.path) (d : download) :
  downloadFile_events redirects events destPath d
  = match events with
    | [] => d
    | ev :: rest =>
        if negb (dl_live d) then d
        else
          match ev with
          | Response statusCode statusMessage location contentLength =>
              if (300 <=? statusCode)%Z && (statusCode <? 400)%Z
                 && negb (is_empty (or_default location EmptyString))
              then
                match redirects with
                | 0 => d
                | S n =>
                    let inner :=
                      downloadFile_events n (http_get (or_default location EmptyString))
                        destPath
                        {| dl_world := request (dl_world d) (or_default location EmptyString);
                           dl_promise := Pending; dl_piping := false; dl_total := 0;
                           dl_received := 0; dl_live := true |} in
                    downloadFile_events redirects rest destPath
                      (settle (set_world d (dl_world inner)) (dl_promise inner))
                end
              else
                downloadFile_events redirects rest destPath
                  (on_response d destPath statusCode statusMessage contentLength)
          | Data chunk =>
              downloadFile_events redirects rest destPath (on_data d destPath chunk)
          | Finish =>
              downloadFile_events redirects rest destPath
                (if dl_piping d then settle (set_piping d false) (Resolved destPath)
                 else d)
          | StreamError message =>
              downloadFile_events redirects rest destPath
                (if dl_piping d then on_stream_error d destPath message else d)
          | RequestError message =>
              downloadFile_events redirects rest destPath (settle d (Rejected message))
          | Timeout => settle (stop d) (Rejected "Download timeout")
          end
    end.
Proof. destruct redirects, events; reflexivity. Qed.

Lemma append_first_chunk (fs : fsT) (destPath : Path.path) (chunk : string) :
  append_chunk (<[destPath := File EmptyString]> fs) destPath chunk
  = <[destPath := File chunk]> fs.
Proof.
  unfold append_chunk. rewrite lookup_insert_eq. cbn. apply insert_insert_eq.
Qed.

(** Runs a download whose events start with a 200 response and one chunk
    up to the point where the chunk is in the file; [Hevents] gives the
    events, [Hparent] the directory of the destination and [Hfree] says
    the destination does not exist yet. *)
Ltac first_chunk_written Hevents Hparent Hfree :=
  unfold downloadFile; rewrite Hevents;
  rewrite !downloadFile_events_unfold; cbn [dl_live negb];
  change ((300 <=? 200)%Z) with false; cbn [andb];
  unfold on_response; change (negb (200 =? 200)%Z) with false; cbv iota;
  cbn [dl_world request d_fs];
  rewrite (is_dir_exists _ _ Hparent);
  unfold writeFileSync; rewrite Hparent;
  unfold existsSync in Hfree;
  match type of Hfree with
  | context [node_at ?fs ?p] =>
      destruct (node_at fs p) eqn:?; [discriminate |]
  end;
  cbn; rewrite !append_first_chunk.

(** C2, what the code does on a stalled download.  The server answers
    200, a chunk of the body arrives and is written, then the 30 s
    timeout fires: the promise is rejected with [Download timeout] and
    the destination still holds the partial file. *)
Theorem downloadFile_timeout_keeps_partial_file :
  forall (redirects : nat) (w : world) (url : string) (destPath : Path.path)
         (statusMessage : string) (location : option string)
         (contentLength : option nat) (chunk : string) (rest : list net_event),
    http_get url
    = Response 200 statusMessage location contentLength :: Data chunk :: Timeout :: rest ->
    is_dir (d_fs w) (Path.dirname destPath) = true ->
    existsSync (d_fs w) destPath = false ->
    snd (downloadFile redirects w url destPath) = Rejected "Download timeout"
    /\ d_fs (fst (downloadFile redirects w url destPath)) !! destPath
       = Some (File chunk)
    /\ existsSync (d_fs (fst (downloadFile redirects w url destPath))) destPath = true.
Proof.
  intros redirects w url destPath statusMessage location contentLength chunk rest
         Hevents Hparent Hfree.
  assert (Hnode : forall fs, node_at fs destPath = fs !! destPath)
    by (intros fs; destruct destPath; [discriminate | reflexivity]).
  first_chunk_written Hevents Hparent Hfree.
  destruct contentLength as [[|n]|]; cbn; unfold existsSync;
    rewrite ?Hnode, ?lookup_insert_eq; repeat split.
Qed.

(** The sibling path: an error of the file stream does remove the
    partial file before the promise is rejected. *)
Lemma downloadFile_stream_error_removes_file :
  forall (redirects : nat) (w : world) (url : string) (destPath : Path.path)
         (statusMessage message : string) (location : option string)
         (contentLength : option nat) (chunk : string),
    http_get url
    = [Response 200 statusMessage location contentLength; Data chunk; StreamError message] ->
    is_dir (d_fs w) (Path.dirname destPath) = true ->
    existsSync (d_fs w) destPath = false ->
    snd (downloadFile redirects w url destPath) = Rejected message
    /\ existsSync (d_fs (fst (downloadFile redirects w url destPath))) destPath = false.
Proof.
  intros redirects w url destPath statusMessage message location contentLength chunk
         Hevents Hparent Hfree.
  assert (Hnode : forall fs, node_at fs destPath = fs !! destPath)
    by (intros fs; destruct destPath; [discriminate | reflexivity]).
  first_chunk_written Hevents Hparent Hfree.
  destruct contentLength as [[|n]|]; cbn;
    unfold on_stream_error, unlink_quietly, unlinkSync, existsSync; cbn;
    rewrite ?Hnode, ?lookup_insert_eq; cbn;
    rewrite ?Hnode, ?lookup_delete_eq; split; reflexivity.
Qed.

End TransportFacts.

Lemma downloadFile_timeout_witness :
  snd (@Downloader.downloadFile (Sample.runtime "sha1:8") 5 Sample.empty_world
         "https://slow.example/file" ["partial.bin"])
  = Downloader.Rejected "Download timeout"
  /\ Downloader.d_fs (fst (@Downloader.downloadFile (Sample.runtime "sha1:8") 5 Sample.empty_world
                  "https://slow.example/file" ["partial.bin"]))
       !! ["partial.bin"]
     = Some (File "abc").
Proof.
  destruct (@downloadFile_timeout_keeps_partial_file (Sample.runtime "sha1:8")
              5 Sample.empty_world "https://slow.example/file" ["partial.bin"]
              "OK" None (Some 6) "abc" [])
    as (Hrejected & Hfile & _).
  - reflexivity.
  - reflexivity.
  - reflexivity.
  - split; [exact Hrejected | exact Hfile].
Defined.

(** ** Downloader: checksum verification *)

Section PathFacts.

Lemma split_from_tgz (s cur : string) :
  exists l x, split_from "/" cur (s ++ ".tgz") = List.app l [x ++ ".tgz"].
Proof.
  revert cur. induction s as [|a s IH]; intros cur.
  - exists [], cur. cbn. now rewrite !append_assoc.
  - simpl. destruct (Ascii.eqb a "/").
    + destruct (IH EmptyString) as (l & x & ->). now exists (cur :: l), x.
    + apply IH.
Qed.

Lemma push_tgz (q : Path.path) (x : string) :
  Path.push q (x ++ ".tgz") = List.app q [x ++ ".tgz"].
Proof.
  unfold Path.push.
  assert (Hlen : 4 <= String.length (x ++ ".tgz"))
    by (rewrite length_append; simpl; lia).
  assert (Hempty : is_empty (x ++ ".tgz") = false)
    by (destruct (x ++ ".tgz"); [simpl in Hlen; lia | reflexivity]).
  assert (Hdot : String.eqb (x ++ ".tgz") "." = false).
  { apply String.eqb_neq. intros Heq. rewrite Heq in Hlen. simpl in Hlen. lia. }
  assert (Hdots : String.eqb (x ++ ".tgz") ".." = false).
  { apply String.eqb_neq. intros Heq. rewrite Heq in Hlen. simpl in Hlen. lia. }
  now rewrite Hempty, Hdot, Hdots.
Qed.

(** A path joined from a name that ends in [.tgz] ends in a segment that
    ends in [.tgz]. *)
Lemma join_tgz (p : Path.path) (stem : string) :
  exists q x, Path.join p (stem ++ ".tgz") = List.app q [x ++ ".tgz"].
Proof.
  unfold Path.join, Path.segments, split.
  destruct (split_from_tgz stem EmptyString) as (l & x & ->).
  rewrite fold_left_app. simpl. rewrite push_tgz. eauto.
Qed.

Lemma tarball_path_not_manifest (destDir : Path.path) (packageName : string)
      (targetVersion : value) :
  Path.join destDir (Downloader.tarball_name packageName targetVersion)
  <> Path.join destDir Downloader.MANIFEST_FILENAME.
Proof.
  unfold Downloader.tarball_name.
  rewrite <- !append_assoc.
  destruct (join_tgz destDir
              ((Re.replace_first [Re.Lit "/"] (fun _ => "-") packageName ++ "-")
               ++ to_string targetVersion)) as (q & x & ->).
  intros Heq. change (Path.join destDir Downloader.MANIFEST_FILENAME)
    with (destDir ++ [Downloader.MANIFEST_FILENAME])%list in Heq.
  apply app_inj_tail in Heq as [_ Heq].
  pose proof (ends_with_append x ".tgz") as Hends.
  rewrite Heq in Hends. discriminate.
Qed.

End PathFacts.

Section ChecksumFacts.
Import Downloader.
Context `{Runtime}.

Lemma readManifest_delete (fs : fsT) (destDir p : Path.path) :
  p <> Path.join destDir MANIFEST_FILENAME ->
  readManifest (delete p fs) destDir = readManifest fs destDir.
Proof.
  intros Hne. unfold readManifest, existsSync, readFileSync.
  rewrite join_manifest in *. rewrite !node_at_snoc.
  rewrite lookup_delete_ne by assumption.
  now destruct (fs !! (destDir ++ [MANIFEST_FILENAME])%list) as [[]|].
Qed.

(** The version the registry lookup resolves with has been written into
    the address of the second request: it is one a template can print. *)
Lemma getNpmPackageVersionInfo_renders (w w0 : world) (packageName : string)
      (version : option string) (info : VersionInfo) :
  getNpmPackageVersionInfo w packageName version = (w0, Resolved info) ->
  renders (v_version info) = true.
Proof.
  unfold getNpmPackageVersionInfo. cbv zeta.
  destruct (fetchJson _) as [| data | e]; try discriminate.
  destruct (nullish data); try discriminate.
  destruct (_ && _); try discriminate.
  set (targetVersion := match version with
                        | Some v => if is_empty v then _ else Str v
                        | None => _
                        end).
  unfold render. destruct (renders targetVersion) eqn:Hrenders; try discriminate.
  destruct (fetchJson _) as [| versionData | e]; try discriminate.
  destruct (nullish versionData); try discriminate.
  intros Heq. injection Heq as _ <-. exact Hrenders.
Qed.

Lemma fetch_and_install_mismatch (redirects : nat) (w w1 : world)
      (packageName : string) (destDir saved : Path.path) (targetVersion : value)
      (shasum url content : string) :
  renders targetVersion = true ->
  is_empty shasum = false ->
  downloadFile redirects
    (say w ("Downloading " ++ (packageName ++ "@" ++ to_string targetVersion) ++ "..."))
    url (Path.join destDir (tarball_name packageName targetVersion))
  = (w1, Resolved saved) ->
  readFileSync (d_fs w1) (Path.join destDir (tarball_name packageName targetVersion))
  = Returns content ->
  toLowerCase (digest_hex "sha1" content) <> toLowerCase shasum ->
  fetch_and_install redirects w packageName destDir targetVersion (Str shasum) (Str url)
  = (with_fs (say w1 "Verifying checksum...")
             (delete (Path.join destDir (tarball_name packageName targetVersion))
                     (d_fs w1)),
     Rejected ("Checksum verification failed for " ++ packageName ++ "@"
               ++ to_string targetVersion)).
Proof.
  intros Hrenders Hknown Hdownload Hcontent Hmismatch.
  assert (Hnode : node_at (d_fs w1)
                    (Path.join destDir (tarball_name packageName targetVersion))
                  = Some (File content)).
  { unfold readFileSync in Hcontent.
    destruct (node_at (d_fs w1) _) as [[c|]|]; congruence. }
  unfold fetch_and_install. rewrite Hrenders. cbv beta iota zeta. rewrite Hdownload.
  cbn [truthy]. rewrite Hknown. cbn [negb].
  unfold verifyChecksum, calculateChecksum. cbn [d_fs say].
  rewrite Hcontent.
  apply String.eqb_neq in Hmismatch. rewrite Hmismatch.
  unfold unlinkSync. rewrite Hnode. reflexivity.
Qed.

(** C7.  The registry names a shasum and a tarball, the cache does not
    answer (forced, or checked and not up to date) and the tarball is
    downloaded; if
    its sha1 digest differs from the shasum (both lowered), then
    [downloadFromNpm] rejects with [Checksum verification failed for
    name@version], and all it has done since the download is to announce
    the verification and to delete the tarball: nothing was extracted,
    the manifest is as it was, no further request was sent. *)
Theorem downloadFromNpm_checksum_mismatch :
  forall (redirects : nat) (w w0 w1 : world) (packageName : string)
         (destDir saved : Path.path) (version : option string) (force : bool)
         (info : VersionInfo) (shasum url content : string),
    getNpmPackageVersionInfo (say w "Checking for updates...") packageName version
    = (w0, Resolved info) ->
    v_shasum info = Str shasum ->
    is_empty shasum = false ->
    v_tarball info = Str url ->
    is_empty url = false ->
    (force = true
     \/ exists check,
         checkIfUpToDate (d_fs w0) destDir (Str packageName)
                         (v_version info) (v_shasum info) = Returns check
         /\ upToDate check = false) ->
    let tarballPath := Path.join destDir (tarball_name packageName (v_version info)) in
    downloadFile redirects (before_download w0 packageName destDir info force)
                 url tarballPath
    = (w1, Resolved saved) ->
    readFileSync (d_fs w1) tarballPath = Returns content ->
    toLowerCase (digest_hex "sha1" content) <> toLowerCase shasum ->
    let run := downloadFromNpm redirects w packageName destDir version force in
    snd run = Rejected ("Checksum verification failed for " ++ packageName ++ "@"
                        ++ to_string (v_version info))
    /\ d_fs (fst run) = delete tarballPath (d_fs w1)
    /\ existsSync (d_fs (fst run)) tarballPath = false
    /\ readManifest (d_fs (fst run)) destDir = readManifest (d_fs w1) destDir
    /\ d_status (fst run) = (d_status w1 ++ ["Verifying checksum..."])%list
    /\ d_requests (fst run) = d_requests w1.
Proof.
  intros redirects w w0 w1 packageName destDir saved version force info shasum url
         content Hinfo Hshasum Hknown Htarball Hurl Hcache tarballPath Hdownload
         Hcontent Hmismatch run.
  pose proof (getNpmPackageVersionInfo_renders _ _ _ _ _ Hinfo) as Hrenders.
  destruct info as [targetVersion tarballUrl remoteShasum].
  cbn [v_version v_tarball v_shasum] in *. subst tarballUrl remoteShasum.
  unfold before_download in Hdownload. cbn [v_version v_shasum] in Hdownload.
  assert (Hlookup : forall fs, node_at fs tarballPath = fs !! tarballPath).
  { intros fs. unfold readFileSync in Hcontent.
    destruct tarballPath; [discriminate | reflexivity]. }
  assert (Hrun : run
                 = (with_fs (say w1 "Verifying checksum...")
                            (delete tarballPath (d_fs w1)),
                    Rejected ("Checksum verification failed for " ++ packageName ++ "@"
                              ++ to_string targetVersion))).
  { subst run. unfold downloadFromNpm. rewrite Hinfo.
    cbn [v_version v_tarball v_shasum truthy]. rewrite Hurl. cbn [negb].
    destruct force.
    - eapply fetch_and_install_mismatch; eauto.
    - destruct Hcache as [Hforce | (check & Hcheck & Hstale)]; [discriminate |].
      rewrite Hcheck in *. rewrite Hstale. cbn [reason_of] in Hdownload.
      eapply fetch_and_install_mismatch; eauto. }
  rewrite Hrun. cbn [fst snd d_fs d_status d_requests with_fs say].
  repeat split.
  - unfold existsSync. now rewrite Hlookup, lookup_delete_eq.
  - apply readManifest_delete, tarball_path_not_manifest.
Qed.

End ChecksumFacts.

Lemma downloadFromNpm_checksum_mismatch_witness :
  snd (@Downloader.downloadFromNpm (Sample.runtime "sha1:9") 5 Sample.empty_world
         "demo" ["cache"; "demo"] None false)
  = Downloader.Rejected "Checksum verification failed for demo@2.0.76"
  /\ Fs.existsSync
       (Downloader.d_fs
          (fst (@Downloader.downloadFromNpm (Sample.runtime "sha1:9") 5
                  Sample.empty_world "demo" ["cache"; "demo"] None false)))
       ["cache"; "demo"; "demo-2.0.76.tgz"]
     = false.
Proof.
  destruct (@downloadFromNpm_checksum_mismatch (Sample.runtime "sha1:9") 5
              Sample.empty_world
              (fst (@Downloader.getNpmPackageVersionInfo (Sample.runtime "sha1:9")
                      (Downloader.say Sample.empty_world "Checking for updates...")
                      "demo" None))
              (fst (@Downloader.downloadFile (Sample.runtime "sha1:9") 5
                      (@before_download (Sample.runtime "sha1:9")
                         (fst (@Downloader.getNpmPackageVersionInfo
                                 (Sample.runtime "sha1:9")
                                 (Downloader.say Sample.empty_world
                                                 "Checking for updates...")
                                 "demo" None))
                         "demo" ["cache"; "demo"]
                         {| Downloader.v_version := Str "2.0.76";
                            Downloader.v_tarball :=
                              Str "https://registry.npmjs.org/demo/-/demo-2.0.76.tgz";
                            Downloader.v_shasum := Str "sha1:9" |}
                         false)
                      "https://registry.npmjs.org/demo/-/demo-2.0.76.tgz"
                      ["cache"; "demo"; "demo-2.0.76.tgz"]))
              "demo" ["cache"; "demo"] ["cache"; "demo"; "demo-2.0.76.tgz"] None false
              {| Downloader.v_version := Str "2.0.76";
                 Downloader.v_tarball :=
                   Str "https://registry.npmjs.org/demo/-/demo-2.0.76.tgz";
                 Downloader.v_shasum := Str "sha1:9" |}
              "sha1:9" "https://registry.npmjs.org/demo/-/demo-2.0.76.tgz" "tar-ball")
    as (Hrejected & _ & Hgone & _).
  - vm_compute; reflexivity.
  - vm_compute; reflexivity.
  - vm_compute; reflexivity.
  - vm_compute; reflexivity.
  - vm_compute; reflexivity.
  - right. eexists. split; vm_compute; reflexivity.
  - vm_compute; reflexivity.
  - vm_compute; reflexivity.
  - vm_compute. discriminate.
  - split; [exact Hrejected | exact Hgone].
Defined.

(** ** Builder: the source patcher *)

Section PatternFacts.
Import Re Builder.





















End PatternFacts.

Section PatcherFacts.
Import Re Builder.
Context `{Engine}.

Lemma mark_entrypoint_no_match (patterns : list regexp) (replacement content : string) :
  (forall pattern, In pattern patterns -> re_test pattern content = false) ->
  mark_entrypoint patterns replacement content = content.
Proof.
  induction patterns as [|pattern rest IH]; intros Hnone; simpl; [reflexivity |].
  rewrite (Hnone pattern (or_introl eq_refl)).
  apply IH. intros q Hq. apply Hnone. now right.
Qed.
















Lemma prepareSource_succeeds (w : world) (sourceDir : Path.path)
      (targetPlatform bytes text : string) (toolConfig : option ToolConfig) :
  let entryPoint := or_default (build_field entryPoint toolConfig) "cli.js" in
  let preparedPath := Path.join sourceDir (prepared_name entryPoint targetPlatform) in
  readFileSync (w_fs w) (Path.join sourceDir entryPoint) = Returns bytes ->
  is_dir (w_fs w) (Path.dirname preparedPath) = true ->
  is_dir (w_fs w) preparedPath = false ->
  prepared_text (w_fs w) (utf8 bytes) sourceDir targetPlatform toolConfig = Returns text ->
  prepareSource w sourceDir targetPlatform toolConfig
  = ({| w_fs := <[preparedPath := File text]> (w_fs w);
        w_status := List.app (w_status w)
                             (prepare_status entryPoint targetPlatform preparedPath);
        w_progress := w_progress w |},
     Returns preparedPath).
Proof.
  intros entryPoint preparedPath Hread Hparent Hfree Htext.
  unfold prepareSource. fold entryPoint.
  assert (Hexists : existsSync (w_fs w) (Path.join sourceDir entryPoint) = true).
  { unfold readFileSync in Hread. unfold existsSync.
    destruct (node_at (w_fs w) _) as [[c|]|]; congruence. }
  rewrite Hexists. cbn [negb say w_fs]. rewrite Hread.
  fold preparedPath.
  unfold prepared_text in Htext. cbv zeta in Htext. unfold prepare_status.
  destruct (String.eqb targetPlatform "windows"); cbv beta iota zeta;
    cbn [say w_fs w_status w_progress];
    [destruct (applyWindowsPatches _ toolConfig) as [content | e]; [| discriminate] |];
    cbn [say w_fs w_status w_progress];
    rewrite Htext;
    unfold writeFileSync; rewrite Hparent;
    unfold is_dir in Hfree;
    (destruct (node_at (w_fs w) preparedPath) as [[c|]|]; try discriminate);
    unfold say, with_fs; cbn [w_fs w_status w_progress];
    rewrite <- !app_assoc; reflexivity.
Qed.

Lemma prepareSource_patch_throws (w : world) (sourceDir : Path.path)
      (targetPlatform bytes e : string) (toolConfig : option ToolConfig) :
  let entryPoint := or_default (build_field entryPoint toolConfig) "cli.js" in
  readFileSync (w_fs w) (Path.join sourceDir entryPoint) = Returns bytes ->
  (forall content, applyCommonPatches content toolConfig = Throws e) ->
  (forall content, applyWindowsPatches content toolConfig = Throws e) ->
  prepareSource w sourceDir targetPlatform toolConfig
  = ({| w_fs := w_fs w;
        w_status := List.app (w_status w) (patching_status entryPoint targetPlatform);
        w_progress := w_progress w |},
     Throws e).
Proof.
  intros entryPoint Hread Hcommon Hwindows.
  unfold prepareSource. fold entryPoint.
  assert (Hexists : existsSync (w_fs w) (Path.join sourceDir entryPoint) = true).
  { unfold readFileSync in Hread. unfold existsSync.
    destruct (node_at (w_fs w) _) as [[c|]|]; congruence. }
  rewrite Hexists. cbn [negb say w_fs]. rewrite Hread.
  unfold patching_status.
  destruct (String.eqb targetPlatform "windows"); cbv beta iota zeta;
    cbn [say w_fs w_status w_progress];
    rewrite ?Hwindows, ?Hcommon; unfold say; cbn [w_fs w_status w_progress];
    rewrite <- !app_assoc; reflexivity.
Qed.

(** C4, amended.  The entry point can be read and the prepared file can
    be written.  If the environment prefix of the tool makes a regular
    expression, then where a pattern of the patcher finds nothing the
    substitution is left out and nothing is raised or reported:
    [applyCommonPatches] without a match of the entry-point marker only
    strips, injects and bypasses; without a match of the shell check it
    returns the text as injected; [applyWindowsPatches] without a match
    of the marker returns the text with the compatibility header and the
    global replacements; and [prepareSource] writes the prepared text,
    reports the same messages and returns the path, whether or not any
    pattern matched.  If the prefix makes no regular expression, both
    patchers throw what [new RegExp] throws, whatever the text, and
    [prepareSource] throws it too and writes nothing. *)
Theorem patches_skip_silently :
  forall (w : world) (sourceDir : Path.path) (targetPlatform bytes : string)
         (toolConfig : option ToolConfig),
    let prefix := or_default (build_field envPrefix toolConfig) "CLI_TOOL" in
    let binary := or_default (build_field binaryName toolConfig) "cli-tool" in
    let entryPoint := or_default (build_field entryPoint toolConfig) "cli.js" in
    let preparedPath := Path.join sourceDir (prepared_name entryPoint targetPlatform) in
    readFileSync (w_fs w) (Path.join sourceDir entryPoint) = Returns bytes ->
    is_dir (w_fs w) (Path.dirname preparedPath) = true ->
    is_dir (w_fs w) preparedPath = false ->
    (forall marker,
        RegExp (marker_source prefix) = Returns marker ->
        (forall content,
            (forall pattern, In pattern (marker :: fixed_patterns) ->
                             re_test pattern (strip_shebang content) = false) ->
            applyCommonPatches content toolConfig
            = Returns (bypass_shell_check (inject_shell_detection (strip_shebang content))))
        /\ (forall content,
              let marked := mark_entrypoint (marker :: fixed_patterns)
                                            (bundled_marker prefix)
                                            (strip_shebang content) in
              test shellCheckPattern (inject_shell_detection marked) = false ->
              applyCommonPatches content toolConfig
              = Returns (inject_shell_detection marked))
        /\ (forall content,
              (forall pattern, In pattern (marker :: fixed_patterns) ->
                               re_test pattern (windows_compat content binary) = false) ->
              applyWindowsPatches content toolConfig
              = Returns (windows_compat content binary))
        /\ exists text,
            prepared_text (w_fs w) (utf8 bytes) sourceDir targetPlatform toolConfig
            = Returns text
            /\ prepareSource w sourceDir targetPlatform toolConfig
               = ({| w_fs := <[preparedPath := File text]> (w_fs w);
                     w_status :=
                       List.app (w_status w)
                                (prepare_status entryPoint targetPlatform preparedPath);
                     w_progress := w_progress w |},
                  Returns preparedPath))
    /\ (forall e,
          RegExp (marker_source prefix) = Throws e ->
          (forall content, applyCommonPatches content toolConfig = Throws e)
          /\ (forall content, applyWindowsPatches content toolConfig = Throws e)
          /\ prepareSource w sourceDir targetPlatform toolConfig
             = ({| w_fs := w_fs w;
                   w_status := List.app (w_status w)
                                        (patching_status entryPoint targetPlatform);
                   w_progress := w_progress w |},
                Throws e)).
Proof.
  intros w sourceDir targetPlatform bytes toolConfig prefix binary entryPoint
         preparedPath Hread Hparent Hfree.
  split.
  - intros marker Hmarker.
    assert (Hpatterns : entrypointPatterns prefix = Returns (marker :: fixed_patterns))
      by (unfold entrypointPatterns; now rewrite Hmarker).
    split; [| split; [| split]].
    + intros content Hnone. unfold applyCommonPatches. fold prefix.
      rewrite Hpatterns. cbv zeta. now rewrite mark_entrypoint_no_match.
    + intros content marked Hnone. unfold applyCommonPatches. fold prefix.
      rewrite Hpatterns. cbv zeta. fold marked.
      unfold bypass_shell_check. now rewrite Hnone.
    + intros content Hnone. unfold applyWindowsPatches. fold prefix binary.
      rewrite Hpatterns. cbv zeta. now rewrite mark_entrypoint_no_match.
    + assert (Htext : exists text,
                 prepared_text (w_fs w) (utf8 bytes) sourceDir targetPlatform toolConfig
                 = Returns text).
      { unfold prepared_text, applyWindowsPatches, applyCommonPatches. fold prefix.
        rewrite Hpatterns. cbv zeta.
        destruct (String.eqb targetPlatform "windows"); eauto. }
      destruct Htext as [text Htext]. exists text. split; [exact Htext |].
      now apply (prepareSource_succeeds w sourceDir targetPlatform bytes).
  - intros e Hthrows.
    assert (Hpatterns : entrypointPatterns prefix = Throws e)
      by (unfold entrypointPatterns; now rewrite Hthrows).
    assert (Hcommon : forall content, applyCommonPatches content toolConfig = Throws e).
    { intros content. unfold applyCommonPatches. fold prefix. now rewrite Hpatterns. }
    assert (Hwindows : forall content, applyWindowsPatches content toolConfig = Throws e).
    { intros content. unfold applyWindowsPatches. fold prefix. now rewrite Hpatterns. }
    split; [exact Hcommon |]. split; [exact Hwindows |].
    now apply (prepareSource_patch_throws w sourceDir targetPlatform bytes).
Qed.

End PatcherFacts.

Section PatcherExamples.
Import Re Builder.

Lemma patches_skip_silently_witness :
  @applyCommonPatches Sample.engine Sample.plain_source Sample.claude_code_tool
  = Returns (SHELL_DETECTION_CODE ++ "console.log(1)" ++ nl)
  /\ snd (@prepareSource Sample.engine Sample.plain_project ["app"] "linux"
                         Sample.claude_code_tool)
     = Returns ["app"; "cli-prepared.js"]
  /\ w_status (fst (@prepareSource Sample.engine Sample.plain_project ["app"] "linux"
                                   Sample.claude_code_tool))
     = [ "Reading CLI source (cli.js)..."; "Adding embedded file imports...";
         "Applying common patches...";
         "Prepared source written to /app/cli-prepared.js" ].
Proof.
  destruct (@patches_skip_silently Sample.engine Sample.plain_project ["app"] "linux"
              Sample.plain_source Sample.claude_code_tool)
    as (Hreturns & _).
  - reflexivity.
  - reflexivity.
  - reflexivity.
  - destruct (Hreturns (literal [Lit ("process.env.CLAUDE_CODE_ENTRYPOINT="
                                      ++ dq ++ "cli" ++ dq)]))
      as (Hcommon & _ & _ & text & _ & Hprepare); [vm_compute; reflexivity |].
    split.
    + rewrite Hcommon; [vm_compute; reflexivity |].
      intros pattern Hin. simpl in Hin.
      destruct Hin as [<- | [<- | [<- | []]]]; vm_compute; reflexivity.
    + rewrite Hprepare. split; reflexivity.
Defined.

(** C4 as stated fails: with an opening parenthesis for its environment
    prefix a tool makes [new RegExp] throw; both patchers raise that
    error, and [prepareSource] raises it after three messages and writes
    no prepared file. *)
Lemma patches_throw_on_open_group :
  @applyCommonPatches Sample.engine Sample.plain_source Sample.paren_tool
  = Throws ("Invalid regular expression: /process\.env\.(_ENTRYPOINT=" ++ dq ++ "cli"
            ++ dq ++ "/: Unterminated group")
  /\ @applyWindowsPatches Sample.engine Sample.plain_source Sample.paren_tool
     = Throws ("Invalid regular expression: /process\.env\.(_ENTRYPOINT=" ++ dq ++ "cli"
               ++ dq ++ "/: Unterminated group")
  /\ @prepareSource Sample.engine Sample.plain_project ["app"] "linux" Sample.paren_tool
     = ({| w_fs := w_fs Sample.plain_project;
           w_status := [ "Reading CLI source (cli.js)...";
                         "Adding embedded file imports...";
                         "Applying common patches..." ];
           w_progress := [] |},
        Throws ("Invalid regular expression: /process\.env\.(_ENTRYPOINT=" ++ dq ++ "cli"
                ++ dq ++ "/: Unterminated group"))
  /\ w_fs Sample.plain_project !! ["app"; "cli-prepared.js"] = None.
Proof. repeat split; vm_compute; reflexivity. Qed.

(** Where a directory has the name of the prepared file, or the source
    directory is missing, the patches are applied and the file is not
    written. *)
Example prepareSource_cannot_write :
  @prepareSource Sample.engine Sample.occupied_project ["app"] "linux"
                 Sample.claude_code_tool
  = ({| w_fs := w_fs Sample.occupied_project;
        w_status := [ "Reading CLI source (cli.js)...";
                      "Adding embedded file imports...";
                      "Applying common patches..." ];
        w_progress := [] |},
     Throws "EISDIR: illegal operation on a directory, open '/app/cli-prepared.js'")
  /\ @prepareSource Sample.engine Sample.plain_project ["src"] "linux" Sample.outside_tool
     = ({| w_fs := w_fs Sample.plain_project;
           w_status := [ "Reading CLI source (../app/cli.js)...";
                         "Adding embedded file imports...";
                         "Applying common patches..." ];
           w_progress := [] |},
        Throws "ENOENT: no such file or directory, open '/src/cli-prepared.js'").
Proof. split; vm_compute; reflexivity. Qed.


(** The entry point of the sample project loses its first line. *)
Example prepared_source_without_first_line :
  w_fs (fst (@prepareSource Sample.engine Sample.plain_project ["app"] "linux"
                            Sample.claude_code_tool))
    !! ["app"; "cli-prepared.js"]
  = Some (File (SHELL_DETECTION_CODE
                ++ embedded_block (w_fs Sample.plain_project) ["app"]
                ++ "console.log(1)" ++ nl)).
Proof. vm_compute; reflexivity. Qed.


End PatcherExamples.
